(** * AES wrap / unwrap with a trusted wrapping key and unwrap templates

    A shallow embedding of [src/wrapping/unwrap_with_template.c] of the
    AWS CloudHSM PKCS#11 examples.  The program performs no cryptography of
    its own: every interesting step is a call through the PKCS#11 function
    table [funcs], to [malloc]/[free], or to the helpers of [common.h].  The
    embedding therefore represents each C function as a finite tree of such
    calls ([prog]), and runs a tree against an arbitrary deterministic
    environment that answers every call from the history of the calls made so
    far.  The properties below are statements about the trace of calls a run
    leaves behind and about the status code it returns. *)

From Stdlib Require Import ZArith List String Ascii Bool Lia.
Import ListNotations.
Open Scope string_scope.
Open Scope list_scope.
Open Scope Z_scope.

(** ** C data model *)

(** The source takes [sizeof] of a pointer and of [CK_ULONG]-typed variables;
    both depend on the platform's data model. *)
Inductive data_model : Type := ILP32 | LP64 | LLP64.

Definition sizeof_pointer (dm : data_model) : Z :=
  match dm with ILP32 => 4 | LP64 => 8 | LLP64 => 8 end.

(** [CK_ULONG] is [unsigned long int]. *)
Definition sizeof_CK_ULONG (dm : data_model) : Z :=
  match dm with ILP32 => 4 | LP64 => 8 | LLP64 => 4 end.

(** [CK_BBOOL] is [unsigned char]. *)
Definition sizeof_CK_BBOOL : Z := 1.

(** ** PKCS#11 types and constants (pkcs11t.h, reached through common.h) *)

Definition CK_BYTE := Z.
Definition CK_BBOOL := Z.
Definition CK_ULONG := Z.
Definition CK_RV := Z.
Definition CK_SESSION_HANDLE := Z.
Definition CK_OBJECT_HANDLE := Z.

Definition CKR_OK : CK_RV := 0.
Definition CKR_GENERAL_ERROR : CK_RV := 5.
Definition CKR_ARGUMENTS_BAD : CK_RV := 7.
Definition CKR_TEMPLATE_INCONSISTENT : CK_RV := 209.

Definition CK_INVALID_HANDLE : CK_OBJECT_HANDLE := 0.

(** The globals [true_val] and [false_val] of common.c. *)
Definition true_val : CK_BBOOL := 1.
Definition false_val : CK_BBOOL := 0.

Definition EXIT_SUCCESS : Z := 0.
Definition EXIT_FAILURE : Z := 1.

(** The named constants the program only ever passes on to the module are
    kept symbolic. *)
Inductive CK_ATTRIBUTE_TYPE : Type :=
| CKA_CLASS | CKA_TOKEN | CKA_LABEL | CKA_TRUSTED | CKA_KEY_TYPE
| CKA_EXTRACTABLE | CKA_SIGN | CKA_VERIFY | CKA_MODULUS_BITS
| CKA_PUBLIC_EXPONENT | CKA_WRAP_WITH_TRUSTED.

Inductive CK_MECHANISM_TYPE : Type :=
| CKM_RSA_X9_31_KEY_PAIR_GEN
| CKM_CLOUDHSM_AES_KEY_WRAP_PKCS5_PAD.

Inductive CK_OBJECT_CLASS : Type :=
| CKO_PUBLIC_KEY | CKO_PRIVATE_KEY | CKO_SECRET_KEY.

Inductive CK_KEY_TYPE : Type :=
| CKK_RSA | CKK_AES.

(** What the [pValue] field of an attribute points at. *)
Inductive pointee : Type :=
| PBool (v : CK_BBOOL)
| PULong (v : CK_ULONG)
| PClass (c : CK_OBJECT_CLASS)
| PKeyType (k : CK_KEY_TYPE)
| PBytes (bs : list CK_BYTE)
| PString (s : string)
| PObject (bytes : list CK_BYTE).
(** [PObject bytes] is a caller's variable handed over as [CK_VOID_PTR] for
    the module to write into; [bytes] is its object representation, so its
    length is the real size of the variable. *)

Record CK_ATTRIBUTE : Type := {
  type : CK_ATTRIBUTE_TYPE;
  pValue : pointee;
  ulValueLen : CK_ULONG
}.

(** [{mechanism, pParameter = NULL, ulParameterLen}] *)
Record CK_MECHANISM : Type := {
  mechanism : CK_MECHANISM_TYPE;
  ulParameterLen : CK_ULONG
}.

Record pkcs_arguments : Type := {
  library : string;
  pin : string;
  wrapping_key_label : string
}.

Definition CK_ATTRIBUTE_TYPE_eqb (a b : CK_ATTRIBUTE_TYPE) : bool :=
  match a, b with
  | CKA_CLASS, CKA_CLASS | CKA_TOKEN, CKA_TOKEN | CKA_LABEL, CKA_LABEL
  | CKA_TRUSTED, CKA_TRUSTED | CKA_KEY_TYPE, CKA_KEY_TYPE
  | CKA_EXTRACTABLE, CKA_EXTRACTABLE | CKA_SIGN, CKA_SIGN
  | CKA_VERIFY, CKA_VERIFY | CKA_MODULUS_BITS, CKA_MODULUS_BITS
  | CKA_PUBLIC_EXPONENT, CKA_PUBLIC_EXPONENT
  | CKA_WRAP_WITH_TRUSTED, CKA_WRAP_WITH_TRUSTED => true
  | _, _ => false
  end.

(** [strlen]: the number of characters before the first NUL. *)
Fixpoint strlen (s : string) : Z :=
  match s with
  | EmptyString => 0
  | String c rest => if Ascii.eqb c Ascii.zero then 0 else 1 + strlen rest
  end.

(** Whether the object a pointer addresses is still alive when the pointer
    is handed over.  Through a pointer whose target's lifetime has ended the
    callee reads indeterminate bytes. *)
Inductive lifetime : Type := Live | Ended.

(** ** Calls into the environment *)

(** A pointer argument is [None] for [NULL] and otherwise carries the current
    contents of the object it points to.  The template of [C_UnwrapKey] is
    recorded as the program last wrote it, together with the state of its
    storage at the call; the other arrays the program passes are
    function-scope arrays, alive at their calls. *)
Inductive call : Type :=
| C_FindObjectsInit (hSession : CK_SESSION_HANDLE)
    (pTemplate : list CK_ATTRIBUTE) (ulCount : CK_ULONG)
| C_FindObjects (hSession : CK_SESSION_HANDLE)
    (phObject : option CK_OBJECT_HANDLE) (ulMaxObjectCount : CK_ULONG)
    (pulObjectCount : CK_ULONG)
| C_FindObjectsFinal (hSession : CK_SESSION_HANDLE)
| C_GenerateKeyPair (hSession : CK_SESSION_HANDLE) (pMechanism : CK_MECHANISM)
    (pPublicKeyTemplate : list CK_ATTRIBUTE) (ulPublicKeyAttributeCount : CK_ULONG)
    (pPrivateKeyTemplate : list CK_ATTRIBUTE) (ulPrivateKeyAttributeCount : CK_ULONG)
    (phPublicKey phPrivateKey : CK_OBJECT_HANDLE)
| C_WrapKey (hSession : CK_SESSION_HANDLE) (pMechanism : CK_MECHANISM)
    (hWrappingKey hKey : CK_OBJECT_HANDLE)
    (pWrappedKey : option (list CK_BYTE)) (pulWrappedKeyLen : CK_ULONG)
| C_UnwrapKey (hSession : CK_SESSION_HANDLE) (pMechanism : CK_MECHANISM)
    (hUnwrappingKey : CK_OBJECT_HANDLE)
    (pWrappedKey : option (list CK_BYTE)) (ulWrappedKeyLen : CK_ULONG)
    (pTemplate : list CK_ATTRIBUTE) (pTemplate_lifetime : lifetime)
    (ulAttributeCount : CK_ULONG)
    (phKey : CK_OBJECT_HANDLE)
| C_GetAttributeValue (hSession : CK_SESSION_HANDLE) (hObject : CK_OBJECT_HANDLE)
    (pTemplate : CK_ATTRIBUTE) (ulCount : CK_ULONG)
| C_DestroyObject (hSession : CK_SESSION_HANDLE) (hObject : CK_OBJECT_HANDLE)
| malloc (size : CK_ULONG)
| free (block : list CK_BYTE)
| get_pkcs_args (argv : list string)
| pkcs11_initialize (library_path : string)
| pkcs11_open_session (pin : string)
| pkcs11_finalize_session (session : CK_SESSION_HANDLE).

(** What a call hands back: the returned value, then the values left in the
    objects behind its output pointers.  The module is not assumed to honour
    any contract: it may store through an output pointer on failure too. *)
Definition response (c : call) : Type :=
  match c with
  | C_FindObjectsInit _ _ _ => CK_RV
  | C_FindObjects _ _ _ _ => (CK_RV * list CK_OBJECT_HANDLE * CK_ULONG)%type
  | C_FindObjectsFinal _ => CK_RV
  | C_GenerateKeyPair _ _ _ _ _ _ _ _ =>
      (CK_RV * CK_OBJECT_HANDLE * CK_OBJECT_HANDLE)%type
  | C_WrapKey _ _ _ _ _ _ => (CK_RV * list CK_BYTE * CK_ULONG)%type
  | C_UnwrapKey _ _ _ _ _ _ _ _ _ => (CK_RV * CK_OBJECT_HANDLE)%type
  | C_GetAttributeValue _ _ _ _ => (CK_RV * list CK_BYTE)%type
  | C_DestroyObject _ _ => CK_RV
  | malloc _ => option (list CK_BYTE)
  | free _ => unit
  | get_pkcs_args _ => (Z * pkcs_arguments)%type
  | pkcs11_initialize _ => CK_RV
  | pkcs11_open_session _ => (CK_RV * CK_SESSION_HANDLE)%type
  | pkcs11_finalize_session _ => unit
  end.

(** Bytes stored through a pointer to an object whose representation is
    [old]: what falls outside the object is not part of it. *)
Definition overwrite (old stored : list CK_BYTE) : list CK_BYTE :=
  firstn (List.length old) (stored ++ skipn (List.length stored) old).

(** ** Diagnostics *)

Inductive stream : Type := stdout | stderr.

Inductive arg : Type :=
| ArgLu (v : Z)
| ArgD (v : Z)
| ArgS (s : string).

Record output_line : Type := {
  to : stream;
  format : string;
  args : list arg
}.

(** ** Programs *)

Inductive prog (A : Type) : Type :=
| Ret (a : A)
| Call (c : call) (k : response c -> prog A)
| Print (o : output_line) (k : prog A).

Arguments Ret {A} a.
Arguments Call {A} c k.
Arguments Print {A} o k.

Fixpoint bind {A B : Type} (m : prog A) (f : A -> prog B) : prog B :=
  match m with
  | Ret a => f a
  | Call c k => Call c (fun r => bind (k r) f)
  | Print o k => Print o (bind k f)
  end.

Definition funcs (c : call) : prog (response c) := Call c Ret.

Definition fprintf (s : stream) (fmt : string) (a : list arg) : prog unit :=
  Print {| to := s; format := fmt; args := a |} (Ret tt).

Definition printf (fmt : string) (a : list arg) : prog unit :=
  fprintf stdout fmt a.

Declare Scope prog_scope.
Delimit Scope prog_scope with prog.
Notation "x <- m ;; k" := (bind m (fun x => k))
  (at level 61, m at next level, right associativity) : prog_scope.
Notation "' p <- m ;; k" := (bind m (fun x => let p := x in k))
  (at level 61, p pattern, m at next level, right associativity) : prog_scope.
Notation "m ;;; k" := (bind m (fun _ => k))
  (at level 61, right associativity) : prog_scope.
Open Scope prog_scope.

(** ** Running a program *)

Record event : Type := Ev { ev_call : call; ev_resp : response ev_call }.

(** The environment answers a call from the history of earlier calls and
    their answers. *)
Definition environment : Type := list event -> forall c : call, response c.

Record world : Type := {
  trace : list event;
  output : list output_line
}.

Definition start : world := {| trace := []; output := [] |}.

Fixpoint run {A : Type} (env : environment) (p : prog A) (w : world)
  : A * world :=
  match p with
  | Ret a => (a, w)
  | Call c k =>
      let r := env (trace w) c in
      run env (k r) {| trace := trace w ++ [Ev c r]; output := output w |}
  | Print o k =>
      run env k {| trace := trace w; output := output w ++ [o] |}
  end.

(** ** The program *)

Section Program.

Variable dm : data_model.

(** [find_wrapping_key_with_label].  The result pairs the returned status
    with the contents of [*hObject] on return. *)
Definition find_wrapping_key_with_label
    (hSession : CK_SESSION_HANDLE) (label : string)
    (hObject : option CK_OBJECT_HANDLE)
  : prog (CK_RV * option CK_OBJECT_HANDLE) :=
  match hObject with
  | None => Ret (CKR_ARGUMENTS_BAD, None)
  | Some cell =>
    let template :=
      [ {| type := CKA_LABEL; pValue := PString label;
           ulValueLen := strlen label |} ] in
    rv <- funcs (C_FindObjectsInit hSession template 1) ;;
    if negb (CKR_OK =? rv) then
      fprintf stderr "Can't initialize search\n" [] ;;;
      Ret (rv, Some cell)
    else
    let found := 0 in
    '(rv, _, found) <- funcs (C_FindObjects hSession None 2 found) ;;
    if negb (CKR_OK =? rv) then
      funcs (C_FindObjectsFinal hSession) ;;;
      Ret (rv, Some cell)
    else
    if found >? 1 then
      fprintf stderr
        "Found multiple keys with the same label. Please provide a unique label"
        [] ;;;
      let rv := CKR_GENERAL_ERROR in
      Ret (rv, Some cell)
    else
    let found := 0 in
    '(rv, stored, found) <- funcs (C_FindObjects hSession (Some cell) 1 found) ;;
    let cell := hd cell stored in
    if negb (CKR_OK =? rv) then
      fprintf stderr "Can't run search\n" [] ;;;
      funcs (C_FindObjectsFinal hSession) ;;;
      Ret (rv, Some cell)
    else
    rv <- funcs (C_FindObjectsFinal hSession) ;;
    if negb (CKR_OK =? rv) then
      fprintf stderr "Can't finalize search\n" [] ;;;
      Ret (rv, Some cell)
    else
    if 0 =? found then
      fprintf stderr "Didn't find requested key\n" [] ;;;
      Ret (rv, Some cell)
    else
    Ret (CKR_OK, Some cell)
  end.

Inductive TEMPLATE_TYPE : Type := VALID | INCONSISTENT | INCOMPLETE.

(** [sizeof(array) / sizeof(CK_ATTRIBUTE)] *)
Definition array_count (template : list CK_ATTRIBUTE) : CK_ULONG :=
  Z.of_nat (List.length template).

(** [generate_rsa_keypair].  [public_key] and [private_key] are the contents
    of the two handle variables before the call; the result carries their
    contents after it. *)
Definition generate_rsa_keypair
    (session : CK_SESSION_HANDLE) (key_length_bits : CK_ULONG)
    (public_key private_key : CK_OBJECT_HANDLE)
  : prog (CK_RV * CK_OBJECT_HANDLE * CK_OBJECT_HANDLE) :=
  let mech := {| mechanism := CKM_RSA_X9_31_KEY_PAIR_GEN; ulParameterLen := 0 |} in
  let public_exponent := [1; 0; 1] in
  let public_key_template :=
    [ {| type := CKA_TOKEN; pValue := PBool true_val; ulValueLen := sizeof_CK_BBOOL |};
      {| type := CKA_VERIFY; pValue := PBool true_val; ulValueLen := sizeof_CK_BBOOL |};
      {| type := CKA_MODULUS_BITS; pValue := PULong key_length_bits;
         ulValueLen := sizeof_CK_ULONG dm |};
      {| type := CKA_PUBLIC_EXPONENT; pValue := PBytes public_exponent;
         ulValueLen := Z.of_nat (List.length public_exponent) |} ] in
  let private_key_template :=
    [ {| type := CKA_TOKEN; pValue := PBool true_val; ulValueLen := sizeof_CK_BBOOL |};
      {| type := CKA_SIGN; pValue := PBool true_val; ulValueLen := sizeof_CK_BBOOL |};
      {| type := CKA_EXTRACTABLE; pValue := PBool true_val; ulValueLen := sizeof_CK_BBOOL |};
      {| type := CKA_WRAP_WITH_TRUSTED; pValue := PBool true_val;
         ulValueLen := sizeof_CK_BBOOL |} ] in
  rv <- funcs (C_GenerateKeyPair session mech
                 public_key_template (array_count public_key_template)
                 private_key_template (array_count private_key_template)
                 public_key private_key) ;;
  Ret rv.

(** [aes_wrap_key].  The result carries the contents of [*wrapped_bytes] and
    of [*wrapped_bytes_len] after the call. *)
Definition aes_wrap_key
    (session : CK_SESSION_HANDLE) (wrapping_key key_to_wrap : CK_OBJECT_HANDLE)
    (wrapped_bytes : option (list CK_BYTE)) (wrapped_bytes_len : CK_ULONG)
  : prog (CK_RV * option (list CK_BYTE) * CK_ULONG) :=
  let mech :=
    {| mechanism := CKM_CLOUDHSM_AES_KEY_WRAP_PKCS5_PAD; ulParameterLen := 0 |} in
  '(rv, stored, len) <-
     funcs (C_WrapKey session mech wrapping_key key_to_wrap
              wrapped_bytes wrapped_bytes_len) ;;
  Ret (rv, option_map (fun old => overwrite old stored) wrapped_bytes, len).

(** The template and count the [switch] of [aes_unwrap_key] writes. *)
Definition unwrap_template (template_type : TEMPLATE_TYPE)
  : list CK_ATTRIBUTE * CK_ULONG :=
  let key_class := CKO_PRIVATE_KEY in
  let wrapped_key_type := CKK_RSA in
  match template_type with
  | VALID =>
    ([ {| type := CKA_CLASS; pValue := PClass key_class;
          ulValueLen := sizeof_CK_ULONG dm |};
       {| type := CKA_KEY_TYPE; pValue := PKeyType wrapped_key_type;
          ulValueLen := sizeof_CK_ULONG dm |};
       {| type := CKA_TOKEN; pValue := PBool false_val; ulValueLen := sizeof_CK_BBOOL |};
       {| type := CKA_EXTRACTABLE; pValue := PBool true_val;
          ulValueLen := sizeof_CK_BBOOL |} ], 4)
  | INCONSISTENT =>
    ([ {| type := CKA_CLASS; pValue := PClass key_class;
          ulValueLen := sizeof_CK_ULONG dm |};
       {| type := CKA_KEY_TYPE; pValue := PKeyType wrapped_key_type;
          ulValueLen := sizeof_CK_ULONG dm |};
       {| type := CKA_TOKEN; pValue := PBool false_val; ulValueLen := sizeof_CK_BBOOL |};
       {| type := CKA_EXTRACTABLE; pValue := PBool false_val;
          ulValueLen := sizeof_CK_BBOOL |} ], 4)
  | INCOMPLETE =>
    ([ {| type := CKA_CLASS; pValue := PClass key_class;
          ulValueLen := sizeof_CK_ULONG dm |};
       {| type := CKA_KEY_TYPE; pValue := PKeyType wrapped_key_type;
          ulValueLen := sizeof_CK_ULONG dm |};
       {| type := CKA_TOKEN; pValue := PBool false_val;
          ulValueLen := sizeof_CK_BBOOL |} ], 3)
  end.

(** [aes_unwrap_key].  [unwrapped_key_handle] is the content of the handle
    variable before the call; the result carries its content after it.  Each
    template is a compound literal of the block of the [switch]: its
    lifetime ends at the closing brace of that block, before [C_UnwrapKey]
    is called with the pointer kept in [template]. *)
Definition aes_unwrap_key
    (session : CK_SESSION_HANDLE) (wrapping_key : CK_OBJECT_HANDLE)
    (wrapped_bytes : option (list CK_BYTE)) (wrapped_bytes_len : CK_ULONG)
    (unwrapped_key_handle : CK_OBJECT_HANDLE) (template_type : TEMPLATE_TYPE)
  : prog (CK_RV * CK_OBJECT_HANDLE) :=
  let mech :=
    {| mechanism := CKM_CLOUDHSM_AES_KEY_WRAP_PKCS5_PAD; ulParameterLen := 0 |} in
  let '(template, template_count) := unwrap_template template_type in
  let template_lifetime := Ended in
  funcs (C_UnwrapKey session mech wrapping_key wrapped_bytes wrapped_bytes_len
           template template_lifetime template_count unwrapped_key_handle).

(** [get_attribute].  [attr_value] is the object representation of the
    variable the [CK_VOID_PTR] points to.  [sizeof(attr_value)] is the size
    of the pointer, so the module is told it may store that many bytes.  The
    result carries the status, the variable as it is after the call, and
    the bytes the module stored past the end of the variable: those land in
    the caller's frame, in locals the compiler chose, and the embedding
    follows the locals as the source names them only on runs where nothing
    is stored past the end (see [stores_fit]). *)
Definition get_attribute
    (session : CK_SESSION_HANDLE) (key_handle : CK_OBJECT_HANDLE)
    (attr_type : CK_ATTRIBUTE_TYPE) (attr_value : list CK_BYTE)
  : prog (CK_RV * list CK_BYTE * list CK_BYTE) :=
  let attr :=
    {| type := attr_type;
       pValue := PObject attr_value;
       ulValueLen := sizeof_pointer dm |} in
  '(rv, stored) <- funcs (C_GetAttributeValue session key_handle attr 1) ;;
  Ret (rv, overwrite attr_value stored,
       skipn (List.length attr_value) stored).

(** A [CK_BBOOL] variable seen through its address, and read back. *)
Definition address_of (val : CK_BBOOL) : list CK_BYTE := [val].
Definition deref (val : CK_BBOOL) (object : list CK_BYTE) : CK_BBOOL :=
  hd val object.

(** [aes_template_unwrap] *)
Definition aes_template_unwrap
    (session : CK_SESSION_HANDLE) (wrapping_key : CK_OBJECT_HANDLE)
    (wrapped_key : option (list CK_BYTE)) (wrapped_len : CK_ULONG)
  : prog CK_RV :=
  let unwrapped_handle := CK_INVALID_HANDLE in
  '(rv, unwrapped_handle) <-
     aes_unwrap_key session wrapping_key wrapped_key wrapped_len
       unwrapped_handle VALID ;;
  if negb (rv =? CKR_OK) then
    fprintf stderr "Could not unwrap key: %lu\n" [ArgLu rv] ;;;
    Ret rv
  else
  printf "Unwrapped bytes as object %lu\n" [ArgLu unwrapped_handle] ;;;
  let val := false_val in
  '(rv, object, past_end) <-
     get_attribute session unwrapped_handle CKA_EXTRACTABLE (address_of val) ;;
  let val := deref val object in
  if negb (rv =? CKR_OK) then
    fprintf stderr "Failed to get attribute value for CKA_EXTRACTABLE" [] ;;;
    Ret rv
  else
  printf "CKA_EXTRACTABLE value for unwrapped key: %d\n" [ArgD val] ;;;
  let invalid_unwrapped_handle := CK_INVALID_HANDLE in
  '(rv, invalid_unwrapped_handle) <-
     aes_unwrap_key session wrapping_key wrapped_key wrapped_len
       invalid_unwrapped_handle INCONSISTENT ;;
  (if negb (rv =? CKR_TEMPLATE_INCONSISTENT) then
     fprintf stderr
       "\nInvalid rv received when using inconsistent wrapping template, rv: %lu\n"
       [ArgLu rv]
   else Ret tt) ;;;
  printf "Unwrap failed when using an invalid template with rv: %lu\n"
    [ArgLu rv] ;;;
  let incomplete_unwrapped_handle := CK_INVALID_HANDLE in
  '(rv, incomplete_unwrapped_handle) <-
     aes_unwrap_key session wrapping_key wrapped_key wrapped_len
       incomplete_unwrapped_handle INCOMPLETE ;;
  if negb (rv =? CKR_OK) then
    fprintf stderr
      "\nInvalid rv received when using incomplete wrapping template, rv: %lu\n"
      [ArgLu rv] ;;;
    Ret rv
  else
  printf "\nUnwrap passed when using an incomplete template with rv: %lu\n"
    [ArgLu rv] ;;;
  let val := false_val in
  '(rv, object, past_end) <-
     get_attribute session unwrapped_handle CKA_EXTRACTABLE (address_of val) ;;
  let val := deref val object in
  if negb (rv =? CKR_OK) then
    fprintf stderr "Failed to get attribute value for CKA_EXTRACTABLE" [] ;;;
    Ret rv
  else
  printf "CKA_EXTRACTABLE value for unwrapped key: %d\n" [ArgD val] ;;;
  Ret rv.

(** The block at the label [done] of [aes_wrap_unwrap_with_trusted], as a
    function of the locals it reads. *)
Definition done
    (session : CK_SESSION_HANDLE) (rv : CK_RV)
    (wrapped_key : option (list CK_BYTE))
    (rsa_public_key rsa_private_key : CK_OBJECT_HANDLE)
  : prog CK_RV :=
  match wrapped_key with
  | Some block => funcs (free block)
  | None => Ret tt
  end ;;;
  public_cleanup_rv <- funcs (C_DestroyObject session rsa_public_key) ;;
  (if negb (CKR_OK =? public_cleanup_rv) then
     fprintf stderr "Failed to delete public key with rv: %lu\n"
       [ArgLu public_cleanup_rv]
   else Ret tt) ;;;
  private_cleanup_rv <- funcs (C_DestroyObject session rsa_private_key) ;;
  (if negb (CKR_OK =? private_cleanup_rv) then
     fprintf stderr "Failed to delete private key with rv: %lu\n"
       [ArgLu private_cleanup_rv]
   else Ret tt) ;;;
  Ret rv.

(** [aes_wrap_unwrap_with_trusted] *)
Definition aes_wrap_unwrap_with_trusted
    (session : CK_SESSION_HANDLE) (wrapping_key_label : string)
  : prog CK_RV :=
  let wrapped_key : option (list CK_BYTE) := None in
  let rsa_public_key := CK_INVALID_HANDLE in
  let rsa_private_key := CK_INVALID_HANDLE in
  let wrapping_key := CK_INVALID_HANDLE in
  '(rv, wrapping_key_ptr) <-
     find_wrapping_key_with_label session wrapping_key_label (Some wrapping_key) ;;
  let wrapping_key := match wrapping_key_ptr with
                      | Some v => v
                      | None => wrapping_key
                      end in
  if negb (CKR_OK =? rv) then
    fprintf stderr "Could not find a key with the label: %s\n"
      [ArgS wrapping_key_label] ;;;
    Ret rv
  else
  let cka_trusted_val := false_val in
  '(rv, object, past_end) <-
     get_attribute session wrapping_key CKA_TRUSTED (address_of cka_trusted_val) ;;
  let cka_trusted_val := deref cka_trusted_val object in
  if negb (rv =? CKR_OK) then
    fprintf stderr "Failed to get CKA_TRUSTED attribute on the wrapping key: %lu\n"
      [ArgLu rv] ;;;
    done session rv wrapped_key rsa_public_key rsa_private_key
  else
  if negb (cka_trusted_val =? true_val) then
    fprintf stderr "Invalid wrapping key specified. Please specify wrapping key with CKA_TRUSTED set to true\n" [] ;;;
    fprintf stderr "The CKA_TRUSTED attribute for the wrapping key can be set by using the CloudHSM CLI:\n\n" [] ;;;
    fprintf stderr "aws-cloudhsm> login --role admin --username <admin-username> --password <admin-password>\n" [] ;;;
    fprintf stderr "aws-cloudhsm> key list --filter attr.label=%s\n"
      [ArgS wrapping_key_label] ;;;
    fprintf stderr "aws-cloudhsm> key set-attribute --name trusted --value true --filter key-reference=<wrapping-key-reference>" [] ;;;
    let rv := CKR_GENERAL_ERROR in
    done session rv wrapped_key rsa_public_key rsa_private_key
  else
  '(rv, rsa_public_key, rsa_private_key) <-
     generate_rsa_keypair session 2048 rsa_public_key rsa_private_key ;;
  if negb (rv =? CKR_OK) then
    fprintf stderr "RSA key generation failed: %lu\n" [ArgLu rv] ;;;
    done session rv wrapped_key rsa_public_key rsa_private_key
  else
  printf "rsa_private_key: %lu\n" [ArgLu rsa_private_key] ;;;
  let wrapped_len := 0 in
  '(rv, _, wrapped_len) <-
     aes_wrap_key session wrapping_key rsa_private_key None wrapped_len ;;
  if negb (rv =? CKR_OK) then
    fprintf stderr "Could not determine size of wrapped key: %lu\n" [ArgLu rv] ;;;
    done session rv wrapped_key rsa_public_key rsa_private_key
  else
  wrapped_key <- funcs (malloc wrapped_len) ;;
  match wrapped_key with
  | None =>
    fprintf stderr "Could not allocate memory to hold wrapped key\n" [] ;;;
    done session rv wrapped_key rsa_public_key rsa_private_key
  | Some _ =>
  '(rv, wrapped_key, wrapped_len) <-
     aes_wrap_key session wrapping_key rsa_private_key wrapped_key wrapped_len ;;
  if negb (rv =? CKR_OK) then
    fprintf stderr "Could not wrap key: %lu\n" [ArgLu rv] ;;;
    done session rv wrapped_key rsa_public_key rsa_private_key
  else
  rv <- aes_template_unwrap session wrapping_key wrapped_key wrapped_len ;;
  if negb (CKR_OK =? rv) then
    done session rv wrapped_key rsa_public_key rsa_private_key
  else
  done session rv wrapped_key rsa_public_key rsa_private_key
  end.

(** [main]: the exit status of the process. *)
Definition main (argv : list string) : prog Z :=
  let rc := EXIT_FAILURE in
  '(parsed, args) <- funcs (get_pkcs_args argv) ;;
  if parsed <? 0 then Ret rc else
  rv <- funcs (pkcs11_initialize (library args)) ;;
  if negb (CKR_OK =? rv) then Ret rc else
  '(rv, session) <- funcs (pkcs11_open_session (pin args)) ;;
  if negb (CKR_OK =? rv) then Ret rc else
  rv <- aes_wrap_unwrap_with_trusted session (wrapping_key_label args) ;;
  if negb (CKR_OK =? rv) then
    fprintf stderr "Failed to unwrap with trusted wrapping key.\n" [] ;;;
    Ret rc
  else
  funcs (pkcs11_finalize_session session) ;;;
  Ret EXIT_SUCCESS.

End Program.

(** ** Observing a run *)

(** The status, trace and diagnostics of a run from the empty history. *)
Definition result {A : Type} (env : environment) (p : prog A) : A :=
  fst (run env p start).

Definition calls {A : Type} (env : environment) (p : prog A) : list event :=
  trace (snd (run env p start)).

Definition diagnostics {A : Type} (env : environment) (p : prog A)
  : list output_line :=
  output (snd (run env p start)).

(** Each observer below reads one kind of call off an event, with the answer
    it got; [observe] collects them along a trace. *)
Definition observe {B : Type} (f : event -> option B) (tr : list event)
  : list B :=
  flat_map (fun e => match f e with Some b => [b] | None => [] end) tr.

(** Successful search initiations. *)
Definition search_init (e : event) : option CK_RV :=
  match e with
  | Ev (C_FindObjectsInit _ _ _) rv => Some rv
  | _ => None
  end.

(** Searches: the output pointer, the maximum asked for, the status and the
    number of objects reported. *)
Definition search (e : event)
  : option (option CK_OBJECT_HANDLE * CK_ULONG * CK_RV * CK_ULONG) :=
  match e with
  | Ev (C_FindObjects _ phObject ulMax _) (rv, _, found) =>
      Some (phObject, ulMax, rv, found)
  | _ => None
  end.

(** Search finalizations: session and status. *)
Definition search_final (e : event) : option (CK_SESSION_HANDLE * CK_RV) :=
  match e with
  | Ev (C_FindObjectsFinal hSession) rv => Some (hSession, rv)
  | _ => None
  end.

(** Key-pair generations: status and the two handles after the call. *)
Definition generation (e : event)
  : option (CK_RV * CK_OBJECT_HANDLE * CK_OBJECT_HANDLE) :=
  match e with
  | Ev (C_GenerateKeyPair _ _ _ _ _ _ _ _) r => Some r
  | _ => None
  end.

(** Unwraps: the template as the program wrote it and the count passed, the
    status and the handle left in the output variable. *)
Definition unwrap (e : event)
  : option (list CK_ATTRIBUTE * CK_ULONG * CK_RV * CK_OBJECT_HANDLE) :=
  match e with
  | Ev (C_UnwrapKey _ _ _ _ _ pTemplate _ ulCount _) (rv, h) =>
      Some (pTemplate, ulCount, rv, h)
  | _ => None
  end.

(** Attribute queries: the object asked about, the attribute sent and the
    status. *)
Definition query (e : event)
  : option (CK_OBJECT_HANDLE * CK_ATTRIBUTE * CK_RV) :=
  match e with
  | Ev (C_GetAttributeValue _ hObject attr _) (rv, _) => Some (hObject, attr, rv)
  | _ => None
  end.

(** Destructions: session, object and status. *)
Definition destruction (e : event)
  : option (CK_SESSION_HANDLE * CK_OBJECT_HANDLE * CK_RV) :=
  match e with
  | Ev (C_DestroyObject hSession hObject) rv => Some (hSession, hObject, rv)
  | _ => None
  end.

Definition allocation (e : event) : option (CK_ULONG * bool) :=
  match e with
  | Ev (malloc size) (Some _) => Some (size, true)
  | Ev (malloc size) None => Some (size, false)
  | _ => None
  end.

(** ** Templates *)

(** The value a template gives for an attribute type, if it lists it. *)
Definition attribute (t : CK_ATTRIBUTE_TYPE) (template : list CK_ATTRIBUTE)
  : option pointee :=
  option_map pValue
    (find (fun a => CK_ATTRIBUTE_TYPE_eqb (type a) t) template).

(** A template with every entry of one attribute type left out. *)
Definition without (t : CK_ATTRIBUTE_TYPE) (template : list CK_ATTRIBUTE)
  : list CK_ATTRIBUTE :=
  filter (fun a => negb (CK_ATTRIBUTE_TYPE_eqb (type a) t)) template.

(** The size of the object a [pValue] really points to. *)
Definition sizeof_pointee (dm : data_model) (p : pointee) : Z :=
  match p with
  | PBool _ => sizeof_CK_BBOOL
  | PULong _ | PClass _ | PKeyType _ => sizeof_CK_ULONG dm
  | PBytes bs => Z.of_nat (List.length bs)
  | PString s => strlen s
  | PObject bytes => Z.of_nat (List.length bytes)
  end.

(** ** Environments used as concrete inputs *)

(** A module on which the whole scenario goes through, in a build that
    leaves the unwrap templates intact after their block: the label names one
    trusted key (object 7), generation yields objects 11 and 12, the wrapped
    key takes 8 bytes, the valid template unwraps to object 21, the
    inconsistent one is rejected, the incomplete one unwraps to object 23. *)
Definition hsm : environment := fun _ c =>
  match c return response c with
  | C_FindObjectsInit _ _ _ => CKR_OK
  | C_FindObjects _ phObject _ _ =>
      (CKR_OK, match phObject with Some _ => [7] | None => [] end, 1)
  | C_FindObjectsFinal _ => CKR_OK
  | C_GenerateKeyPair _ _ _ _ _ _ _ _ => (CKR_OK, 11, 12)
  | C_WrapKey _ _ _ _ pWrappedKey _ =>
      (CKR_OK,
       match pWrappedKey with Some _ => [1; 2; 3; 4; 5; 6; 7; 8] | None => [] end,
       8)
  | C_UnwrapKey _ _ _ _ _ pTemplate _ _ phKey =>
      match attribute CKA_EXTRACTABLE pTemplate with
      | Some (PBool 1) => (CKR_OK, 21)
      | Some _ => (CKR_TEMPLATE_INCONSISTENT, phKey)
      | None => (CKR_OK, 23)
      end
  | C_GetAttributeValue _ _ _ _ => (CKR_OK, [true_val])
  | C_DestroyObject _ _ => CKR_OK
  | malloc size => Some (repeat 0 (Z.to_nat size))
  | free _ => tt
  | get_pkcs_args _ =>
      (0, {| library := "libcloudhsm_pkcs11.so"; pin := "user:password";
             wrapping_key_label := "wrapping-key" |})
  | pkcs11_initialize _ => CKR_OK
  | pkcs11_open_session _ => (CKR_OK, 1)
  | pkcs11_finalize_session _ => tt
  end.

(** The same module when no object carries the label. *)
Definition hsm_no_match : environment := fun h c =>
  match c return response c with
  | C_FindObjects _ _ _ _ => (CKR_OK, [], 0)
  | c' => hsm h c'
  end.

(** The same module when two objects carry the label. *)
Definition hsm_two_matches : environment := fun h c =>
  match c return response c with
  | C_FindObjects _ phObject _ _ =>
      (CKR_OK, match phObject with Some _ => [7; 8] | None => [] end, 2)
  | c' => hsm h c'
  end.

(** The same module when the search cannot be initiated
    (0x30, CKR_DEVICE_ERROR). *)
Definition hsm_search_init_fails : environment := fun h c =>
  match c return response c with
  | C_FindObjectsInit _ _ _ => 48
  | c' => hsm h c'
  end.

(** The same module when the wrapping key is not marked as trusted. *)
Definition hsm_untrusted : environment := fun h c =>
  match c return response c with
  | C_GetAttributeValue _ _ _ _ => (CKR_OK, [false_val])
  | c' => hsm h c'
  end.

(** The same module when it refuses every destruction
    (0x82, CKR_OBJECT_HANDLE_INVALID). *)
Definition hsm_destroy_fails : environment := fun h c =>
  match c return response c with
  | C_DestroyObject _ _ => 130
  | c' => hsm h c'
  end.

(** The same module in a process whose [malloc] returns [NULL]. *)
Definition hsm_malloc_fails : environment := fun h c =>
  match c return response c with
  | malloc _ => None
  | c' => hsm h c'
  end.

(** ** Views of a trace used in the statements *)

(** The object each attribute query of a run asks about, with the attribute
    type asked for. *)
Definition queried (tr : list event)
  : list (CK_OBJECT_HANDLE * CK_ATTRIBUTE_TYPE) :=
  map (fun q => (fst (fst q), type (snd (fst q)))) (observe query tr).

(** The status and the handle each unwrap of a run leaves behind. *)
Definition unwrapped (tr : list event) : list (CK_RV * CK_OBJECT_HANDLE) :=
  map (fun u => (snd (fst u), snd u)) (observe unwrap tr).

(** The contents of [rsa_public_key] and [rsa_private_key] when the main
    sequence ends: what key-pair generation left in them if it was called,
    [CK_INVALID_HANDLE] otherwise. *)
Definition generated_keys (tr : list event)
  : CK_OBJECT_HANDLE * CK_OBJECT_HANDLE :=
  match observe generation tr with
  | (_, public_key, private_key) :: _ => (public_key, private_key)
  | [] => (CK_INVALID_HANDLE, CK_INVALID_HANDLE)
  end.

(** The session and object of each destruction attempt of a run. *)
Definition destroyed (tr : list event)
  : list (CK_SESSION_HANDLE * CK_OBJECT_HANDLE) :=
  map fst (observe destruction tr).

(** The status [find_wrapping_key_with_label] returns to
    [aes_wrap_unwrap_with_trusted]. *)
Definition lookup_status (env : environment) (session : CK_SESSION_HANDLE)
    (label : string) : CK_RV :=
  fst (result env
         (find_wrapping_key_with_label session label (Some CK_INVALID_HANDLE))).

(** Key-pair generation produced nothing: every generation the run attempted
    failed and left [CK_INVALID_HANDLE] in both handle variables. *)
Definition nothing_generated (tr : list event) : Prop :=
  Forall (fun g => fst (fst g) <> CKR_OK /\
                   snd (fst g) = CK_INVALID_HANDLE /\
                   snd g = CK_INVALID_HANDLE)
    (observe generation tr).

Definition is_search (e : event) : bool :=
  match ev_call e with
  | C_FindObjectsInit _ _ _ | C_FindObjects _ _ _ _ | C_FindObjectsFinal _ => true
  | _ => false
  end.

(** ** Further views of a trace *)

(** The status a PKCS#11 call answered with. *)
Definition status (e : event) : option CK_RV :=
  match e with
  | Ev (C_FindObjectsInit _ _ _) rv => Some rv
  | Ev (C_FindObjects _ _ _ _) (rv, _, _) => Some rv
  | Ev (C_FindObjectsFinal _) rv => Some rv
  | Ev (C_GenerateKeyPair _ _ _ _ _ _ _ _) (rv, _, _) => Some rv
  | Ev (C_WrapKey _ _ _ _ _ _) (rv, _, _) => Some rv
  | Ev (C_UnwrapKey _ _ _ _ _ _ _ _ _) (rv, _) => Some rv
  | Ev (C_GetAttributeValue _ _ _ _) (rv, _) => Some rv
  | Ev (C_DestroyObject _ _) rv => Some rv
  | _ => None
  end.

(** The first status other than [CKR_OK] in a list of statuses. *)
Definition first_failure (statuses : list CK_RV) : option CK_RV :=
  find (fun s => negb (s =? CKR_OK)) statuses.

(** The status of a call of the main sequence: every PKCS#11 call but the
    destructions of the cleanup block and the unwrap whose template asks for
    [CKA_EXTRACTABLE = false_val]. *)
Definition main_status (e : event) : option CK_RV :=
  match e with
  | Ev (C_DestroyObject _ _) _ => None
  | Ev (C_UnwrapKey _ _ _ _ _ pTemplate _ _ _) (rv, _) =>
      match attribute CKA_EXTRACTABLE pTemplate with
      | Some (PBool v) => if v =? false_val then None else Some rv
      | _ => Some rv
      end
  | _ => status e
  end.

(** The session a PKCS#11 call is made in. *)
Definition call_session (e : event) : option CK_SESSION_HANDLE :=
  match ev_call e with
  | C_FindObjectsInit s _ _ | C_FindObjects s _ _ _ | C_FindObjectsFinal s
  | C_GenerateKeyPair s _ _ _ _ _ _ _ | C_WrapKey s _ _ _ _ _
  | C_UnwrapKey s _ _ _ _ _ _ _ _ | C_GetAttributeValue s _ _ _
  | C_DestroyObject s _ => Some s
  | _ => None
  end.

(** The input templates a call is handed in live storage, each with the
    count announced. *)
Definition live_templates (e : event) : list (list CK_ATTRIBUTE * CK_ULONG) :=
  match ev_call e with
  | C_FindObjectsInit _ t n => [(t, n)]
  | C_GenerateKeyPair _ _ pub npub priv npriv _ _ => [(pub, npub); (priv, npriv)]
  | C_UnwrapKey _ _ _ _ _ t Live n _ => [(t, n)]
  | _ => []
  end.

(** Unwraps: the template as the program wrote it, the count passed, and
    the state of the template's storage at the call. *)
Definition unwrap_storage (e : event)
  : option (list CK_ATTRIBUTE * CK_ULONG * lifetime) :=
  match ev_call e with
  | C_UnwrapKey _ _ _ _ _ t l n _ => Some (t, n, l)
  | _ => None
  end.

(** The bytes an attribute query stored past the end of the variable it was
    pointed to. *)
Definition stored_past_end (e : event) : option (list CK_BYTE) :=
  match e with
  | Ev (C_GetAttributeValue _ _ attr _) (_, stored) =>
      match pValue attr with
      | PObject bytes => Some (skipn (List.length bytes) stored)
      | _ => None
      end
  | _ => None
  end.

(** No attribute query of the trace stored past the end of its variable. *)
Definition stores_fit (tr : list event) : Prop :=
  Forall (fun past => past = []) (observe stored_past_end tr).

(** Key-pair generation requests: mechanism and the two templates. *)
Definition generation_request (e : event)
  : option (CK_MECHANISM * list CK_ATTRIBUTE * list CK_ATTRIBUTE) :=
  match ev_call e with
  | C_GenerateKeyPair _ m pub _ priv _ _ _ => Some (m, pub, priv)
  | _ => None
  end.

(** Wraps, as requested: mechanism, wrapping key, key to wrap, output buffer
    and the length passed in. *)
Definition wrap_request (e : event)
  : option (CK_MECHANISM * CK_OBJECT_HANDLE * CK_OBJECT_HANDLE
            * option (list CK_BYTE) * CK_ULONG) :=
  match ev_call e with
  | C_WrapKey _ m wrapping_key key buffer len =>
      Some (m, wrapping_key, key, buffer, len)
  | _ => None
  end.

(** Wraps, as answered: status, bytes stored and length stored. *)
Definition wrap_answer (e : event) : option (CK_RV * list CK_BYTE * CK_ULONG) :=
  match e with
  | Ev (C_WrapKey _ _ _ _ _ _) r => Some r
  | _ => None
  end.

(** Unwraps, as requested: mechanism, unwrapping key, wrapped bytes and
    their length. *)
Definition unwrap_request (e : event)
  : option (CK_MECHANISM * CK_OBJECT_HANDLE * option (list CK_BYTE) * CK_ULONG) :=
  match ev_call e with
  | C_UnwrapKey _ m key bytes len _ _ _ _ => Some (m, key, bytes, len)
  | _ => None
  end.

(** Attribute queries with the bytes the module stored. *)
Definition query_answer (e : event)
  : option (CK_OBJECT_HANDLE * CK_ATTRIBUTE_TYPE * CK_RV * list CK_BYTE) :=
  match e with
  | Ev (C_GetAttributeValue _ hObject attr _) (rv, stored) =>
      Some (hObject, type attr, rv, stored)
  | _ => None
  end.

(** Allocations: the size asked for and the block obtained. *)
Definition allocated (e : event) : option (CK_ULONG * option (list CK_BYTE)) :=
  match e with
  | Ev (malloc size) block => Some (size, block)
  | _ => None
  end.

(** Releases: the block freed. *)
Definition released (e : event) : option (list CK_BYTE) :=
  match ev_call e with
  | free block => Some block
  | _ => None
  end.

(** Sessions opened and sessions finalized by [main]. *)
Definition opened (e : event) : option (CK_RV * CK_SESSION_HANDLE) :=
  match e with
  | Ev (pkcs11_open_session _) r => Some r
  | _ => None
  end.

Definition finalized (e : event) : option CK_SESSION_HANDLE :=
  match ev_call e with
  | pkcs11_finalize_session s => Some s
  | _ => None
  end.

(** What [get_pkcs_args] answered, and the PIN a session was asked for
    with. *)
Definition parsed (e : event) : option (Z * pkcs_arguments) :=
  match e with
  | Ev (get_pkcs_args _) r => Some r
  | _ => None
  end.

Definition login (e : event) : option string :=
  match ev_call e with
  | pkcs11_open_session pin => Some pin
  | _ => None
  end.

Definition initialized (e : event) : option (string * CK_RV) :=
  match e with
  | Ev (pkcs11_initialize path) rv => Some (path, rv)
  | _ => None
  end.

(** The label a search was initiated for. *)
Definition searched_label (e : event) : option pointee :=
  match ev_call e with
  | C_FindObjectsInit _ t _ => attribute CKA_LABEL t
  | _ => None
  end.

(** The handles a search stored through a non-[NULL] output pointer. *)
Definition fetched (e : event) : option (list CK_OBJECT_HANDLE) :=
  match e with
  | Ev (C_FindObjects _ (Some _) _ _) (_, handles, _) => Some handles
  | _ => None
  end.

(** The [CK_BBOOL] a caller reads back after handing [&val], with [val]
    set to [false_val], to a query that stored [stored]. *)
Definition read_back (stored : list CK_BYTE) : CK_BBOOL :=
  hd false_val stored.

(** The last [n] calls of a trace. *)
Definition last_calls (n : nat) (tr : list event) : list call :=
  map (fun e => ev_call e) (skipn (List.length tr - n) tr).

(** A process whose arguments do not parse. *)
Definition hsm_bad_arguments : environment := fun h c =>
  match c return response c with
  | get_pkcs_args _ =>
      (-1, {| library := ""; pin := ""; wrapping_key_label := "" |})
  | c' => hsm h c'
  end.

(** The same module when key-pair generation fails
    (0x30, CKR_DEVICE_ERROR). *)
Definition hsm_generation_fails : environment := fun h c =>
  match c return response c with
  | C_GenerateKeyPair _ _ _ _ _ _ pub priv => (48, pub, priv)
  | c' => hsm h c'
  end.

(** ** Reasoning about runs *)

(** [wp env p w Q]: the run of [p] from [w] ends in a result and a world
    that satisfy [Q]. *)
Definition wp {A : Type} (env : environment) (p : prog A) (w : world)
    (Q : A * world -> Prop) : Prop :=
  Q (run env p w).

Section Rules.

Variable env : environment.

Lemma run_bind {A B : Type} (m : prog A) (f : A -> prog B) (w : world) :
  run env (bind m f) w = run env (f (fst (run env m w))) (snd (run env m w)).
Proof.
  revert w. induction m as [a | c k IH | o k IH]; intros w; cbn.
  - reflexivity.
  - apply IH.
  - apply IH.
Qed.

Lemma wp_bind {A B : Type} (m : prog A) (f : A -> prog B) (w : world)
    (Q : B * world -> Prop) :
  wp env m w (fun x => wp env (f (fst x)) (snd x) Q) -> wp env (bind m f) w Q.
Proof. unfold wp. rewrite run_bind. auto. Qed.

Lemma wp_Ret {A : Type} (a : A) (w : world) (Q : A * world -> Prop) :
  Q (a, w) -> wp env (Ret a) w Q.
Proof. auto. Qed.

(** A call may be answered by anything. *)
Lemma wp_funcs (c : call) (w : world) (Q : response c * world -> Prop) :
  (forall r : response c,
      Q (r, {| trace := trace w ++ [Ev c r]; output := output w |})) ->
  wp env (funcs c) w Q.
Proof. intros H. apply H. Qed.

(** Printing leaves the trace alone. *)
Lemma wp_fprintf (s : stream) (fmt : string) (a : list arg) (w : world)
    (Q : unit * world -> Prop) :
  (forall out, Q (tt, {| trace := trace w; output := out |})) ->
  wp env (fprintf s fmt a) w Q.
Proof. intros H. apply H. Qed.

Lemma wp_when (b : bool) (s : stream) (fmt : string) (a : list arg) (w : world)
    (Q : unit * world -> Prop) :
  (forall out, Q (tt, {| trace := trace w; output := out |})) ->
  wp env (if b then fprintf s fmt a else Ret tt) w Q.
Proof. intros H. destruct b; [apply H | destruct w; apply H]. Qed.

End Rules.

Ltac split_answer r :=
  cbn [response] in r;
  lazymatch type of r with
  | (_ * _ * _)%type => destruct r as [[? ?] ?]
  | (_ * _)%type => destruct r as [? ?]
  | option _ => destruct r
  | unit => destruct r
  | _ => idtac
  end.

Ltac tidy := cbn [fst snd trace output negb option_map].

(** One step of a run: the head of the program decides the rule. *)
Ltac wp_step :=
  lazymatch goal with
  | |- wp _ (bind _ _) _ _ => apply wp_bind
  | |- wp ?env (funcs ?c) ?w ?Q =>
      let r := fresh "r" in
      apply (wp_funcs env c w Q); intro r; split_answer r
  | |- wp _ (fprintf _ _ _) _ _ => apply wp_fprintf; intro
  | |- wp _ (printf _ _) _ _ => apply wp_fprintf; intro
  | |- wp _ (Ret _) _ _ => apply wp_Ret
  | |- wp _ (if _ then fprintf _ _ _ else Ret tt) _ _ => apply wp_when; intro
  | |- wp _ (if negb (?a =? ?b) then _ else _) _ _ => destruct (Z.eqb_spec a b)
  | |- wp _ (if ?a =? ?b then _ else _) _ _ => destruct (Z.eqb_spec a b)
  | |- wp _ (if ?a >? ?b then _ else _) _ _ => destruct (Z.gtb_spec a b)
  | |- wp _ (if ?a <? ?b then _ else _) _ _ => destruct (Z.ltb_spec a b)
  | |- wp _ (match ?x with Some _ => _ | None => _ end) _ _ => destruct x
  | |- wp _ (find_wrapping_key_with_label _ _ _) _ _ =>
      unfold find_wrapping_key_with_label
  | |- wp _ (generate_rsa_keypair _ _ _ _ _) _ _ => unfold generate_rsa_keypair
  | |- wp _ (aes_wrap_key _ _ _ _ _) _ _ => unfold aes_wrap_key
  | |- wp _ (aes_unwrap_key _ _ _ _ _ _ _) _ _ =>
      unfold aes_unwrap_key, unwrap_template
  | |- wp _ (get_attribute _ _ _ _ _) _ _ => unfold get_attribute
  | |- wp _ (aes_template_unwrap _ _ _ _ _) _ _ => unfold aes_template_unwrap
  end; tidy.

(** Turn a statement about the [result] and the [calls] of one run into a
    [wp]. *)
Ltac by_wp :=
  unfold result, calls, start;
  match goal with
  | |- context [run ?env ?p ?w] =>
      pattern (run env p w);
      match goal with
      | |- ?Q (run env p w) => change (wp env p w Q)
      end
  end.

(** The block at [done]: an optional [free], then the two destructions,
    whatever they answer, and the status it was entered with. *)
Lemma done_wp :
  forall (env : environment) (session : CK_SESSION_HANDLE) (rv : CK_RV)
         (wrapped_key : option (list CK_BYTE))
         (rsa_public_key rsa_private_key : CK_OBJECT_HANDLE) (w : world)
         (Q : CK_RV * world -> Prop),
    (forall r1 r2 out,
        Q (rv,
           {| trace :=
                trace w
                  ++ match wrapped_key with
                     | Some block => [Ev (free block) tt]
                     | None => []
                     end
                  ++ [Ev (C_DestroyObject session rsa_public_key) r1;
                      Ev (C_DestroyObject session rsa_private_key) r2];
              output := out |})) ->
    wp env (done session rv wrapped_key rsa_public_key rsa_private_key) w Q.
Proof.
  intros env session rv wrapped_key pub priv w Q H. unfold done.
  destruct wrapped_key; repeat wp_step; rewrite <- !app_assoc; apply H.
Qed.

Ltac wp_done :=
  lazymatch goal with
  | |- wp _ (done _ _ _ _ _) _ _ => apply done_wp; intros ? ? ?; tidy
  end.

Ltac wp_run := repeat first [wp_step | wp_done].

Lemma observe_app {B : Type} (f : event -> option B) (t1 t2 : list event) :
  observe f (t1 ++ t2) = observe f t1 ++ observe f t2.
Proof. apply flat_map_app. Qed.

Lemma observe_search {B : Type} (f : event -> option B) (tr : list event) :
  (forall e, is_search e = true -> f e = None) ->
  forallb is_search tr = true ->
  observe f tr = [].
Proof.
  intros Hf. induction tr as [|e tr IH]; cbn; [reflexivity|].
  intros H. apply andb_true_iff in H. destruct H as [He Htr].
  rewrite (Hf e He). apply IH, Htr.
Qed.

(** The key locator talks to the module through the three search calls
    only. *)
Lemma find_calls_are_searches :
  forall (env : environment) (hSession : CK_SESSION_HANDLE) (label : string)
         (hObject : option CK_OBJECT_HANDLE),
    forallb is_search
      (calls env (find_wrapping_key_with_label hSession label hObject)) = true.
Proof.
  intros. by_wp. destruct hObject; wp_run; reflexivity.
Qed.

(** Evaluate the views of a trace made of a search prefix followed by known
    events. *)
Ltac observers :=
  unfold destroyed, generated_keys, queried, unwrapped, nothing_generated;
  rewrite ?observe_app;
  rewrite ?(observe_search destruction), ?(observe_search generation),
    ?(observe_search query), ?(observe_search unwrap),
    ?(observe_search allocation)
    by (first [assumption | intros [[] ?]; (discriminate || reflexivity)]);
  cbn [observe flat_map app destruction generation query unwrap allocation
         map fst snd].

(** Enter the main sequence of [aes_wrap_unwrap_with_trusted] with the run
    of the lookup summarised by its status [rv], its output cell and a trace
    [tr] of search calls. *)
Ltac after_lookup env session label rv cell tr Htr :=
  unfold lookup_status, result, calls, aes_wrap_unwrap_with_trusted;
  rewrite run_bind;
  let H := fresh "H" in
  pose proof (find_calls_are_searches env session label
                (Some CK_INVALID_HANDLE)) as H;
  unfold calls in H;
  let out := fresh "out" in
  destruct (run env
              (find_wrapping_key_with_label session label
                 (Some CK_INVALID_HANDLE)) start)
    as [[rv cell] [tr out]];
  cbn [fst snd trace] in H |- *; rename H into Htr.

Ltac clear_up :=
  repeat match goal with
    | H : _ /\ _ |- _ => destruct H
    | H : _ \/ _ |- _ => destruct H
    | H : False |- _ => destruct H
    | H : (_, _) = (_, _) |- _ => inversion H; clear H; subst
    | H : Forall _ (_ :: _) |- _ => inversion H; clear H; subst
    end.

(** ** Properties of the key locator *)

(** C8. For every session, label and output pointer, if the probe for up to
    two matches completes and reports more than one object,
    [find_wrapping_key_with_label] returns [CKR_GENERAL_ERROR] (its failure
    status for an ambiguous label, distinct from [CKR_OK]), leaves the
    output cell as it was, and never hands the output pointer to the
    module. *)
Theorem ambiguous_label_is_rejected :
  forall (env : environment) (hSession : CK_SESSION_HANDLE) (label : string)
         (hObject : option CK_OBJECT_HANDLE) (found : CK_ULONG),
    In (None, 2, CKR_OK, found)
       (observe search
          (calls env (find_wrapping_key_with_label hSession label hObject))) ->
    1 < found ->
    result env (find_wrapping_key_with_label hSession label hObject)
      = (CKR_GENERAL_ERROR, hObject) /\
    CKR_GENERAL_ERROR <> CKR_OK /\
    Forall (fun s => fst (fst (fst s)) = None)
      (observe search
         (calls env (find_wrapping_key_with_label hSession label hObject))).
Proof.
  intros env hSession label hObject found. by_wp.
  destruct hObject as [cell|]; wp_run.
  all: unfold CKR_OK, CKR_GENERAL_ERROR in *; cbn; intros Hin Hfound.
  all: clear_up; subst; try lia; try congruence.
  all: repeat split; try discriminate; repeat constructor.
Qed.

Lemma ambiguous_label_is_rejected_witness :
  result hsm_two_matches
    (find_wrapping_key_with_label 1 "wrapping-key" (Some CK_INVALID_HANDLE))
    = (CKR_GENERAL_ERROR, Some CK_INVALID_HANDLE) /\
  CKR_GENERAL_ERROR <> CKR_OK /\
  Forall (fun s => fst (fst (fst s)) = None)
    (observe search
       (calls hsm_two_matches
          (find_wrapping_key_with_label 1 "wrapping-key"
             (Some CK_INVALID_HANDLE)))).
Proof.
  apply (ambiguous_label_is_rejected hsm_two_matches 1 "wrapping-key"
           (Some CK_INVALID_HANDLE) 2).
  - vm_compute. left. reflexivity.
  - lia.
Defined.

(** C1. On a module where no object carries the label, the search is
    initiated, both searches complete reporting zero objects and the search
    is finalized; [find_wrapping_key_with_label] then prints
    "Didn't find requested key" and returns [rv], which is [CKR_OK] at that
    point: success, not a failure status. *)
Theorem no_match_returns_CKR_OK :
  observe search_init
    (calls hsm_no_match
       (find_wrapping_key_with_label 1 "wrapping-key" (Some CK_INVALID_HANDLE)))
    = [CKR_OK] /\
  observe search
    (calls hsm_no_match
       (find_wrapping_key_with_label 1 "wrapping-key" (Some CK_INVALID_HANDLE)))
    = [(None, 2, CKR_OK, 0); (Some CK_INVALID_HANDLE, 1, CKR_OK, 0)] /\
  observe search_final
    (calls hsm_no_match
       (find_wrapping_key_with_label 1 "wrapping-key" (Some CK_INVALID_HANDLE)))
    = [(1, CKR_OK)] /\
  diagnostics hsm_no_match
    (find_wrapping_key_with_label 1 "wrapping-key" (Some CK_INVALID_HANDLE))
    = [{| to := stderr; format := "Didn't find requested key\n"; args := [] |}] /\
  result hsm_no_match
    (find_wrapping_key_with_label 1 "wrapping-key" (Some CK_INVALID_HANDLE))
    = (CKR_OK, Some CK_INVALID_HANDLE).
Proof. repeat split. Qed.

(** Whatever the module, a completed and finalized search that reports zero
    objects makes the locator return [CKR_OK]. *)
Lemma zero_matches_reported_as_success :
  forall (env : environment) (hSession : CK_SESSION_HANDLE) (label : string)
         (cell : CK_OBJECT_HANDLE),
    observe search
      (calls env (find_wrapping_key_with_label hSession label (Some cell)))
      = [(None, 2, CKR_OK, 0); (Some cell, 1, CKR_OK, 0)] ->
    observe search_final
      (calls env (find_wrapping_key_with_label hSession label (Some cell)))
      = [(hSession, CKR_OK)] ->
    fst (result env (find_wrapping_key_with_label hSession label (Some cell)))
      = CKR_OK.
Proof.
  intros env hSession label cell. by_wp. wp_run.
  all: cbn; intros Hsearch Hfinal; try discriminate; try reflexivity.
  all: inversion Hsearch; inversion Hfinal; subst; congruence.
Qed.

(** C2. On a module where two objects carry the label, the search is
    initiated successfully and the probe reports two objects;
    [find_wrapping_key_with_label] returns [CKR_GENERAL_ERROR] without any
    call to [C_FindObjectsFinal]. *)
Theorem ambiguous_label_leaves_search_open :
  observe search_init
    (calls hsm_two_matches
       (find_wrapping_key_with_label 1 "wrapping-key" (Some CK_INVALID_HANDLE)))
    = [CKR_OK] /\
  observe search
    (calls hsm_two_matches
       (find_wrapping_key_with_label 1 "wrapping-key" (Some CK_INVALID_HANDLE)))
    = [(None, 2, CKR_OK, 2)] /\
  result hsm_two_matches
    (find_wrapping_key_with_label 1 "wrapping-key" (Some CK_INVALID_HANDLE))
    = (CKR_GENERAL_ERROR, Some CK_INVALID_HANDLE) /\
  observe search_final
    (calls hsm_two_matches
       (find_wrapping_key_with_label 1 "wrapping-key" (Some CK_INVALID_HANDLE)))
    = [].
Proof. repeat split. Qed.

(** Every other path taken after a successful initiation finalizes the search
    exactly once: the ambiguous-label exit is the only one that does not. *)
Lemma search_finalized_once_unless_ambiguous :
  forall (env : environment) (hSession : CK_SESSION_HANDLE) (label : string)
         (hObject : option CK_OBJECT_HANDLE),
    observe search_init
      (calls env (find_wrapping_key_with_label hSession label hObject))
      = [CKR_OK] ->
    (forall found,
        In (None, 2, CKR_OK, found)
          (observe search
             (calls env (find_wrapping_key_with_label hSession label hObject))) ->
        found <= 1) ->
    map fst
      (observe search_final
         (calls env (find_wrapping_key_with_label hSession label hObject)))
      = [hSession].
Proof.
  intros env hSession label hObject. by_wp.
  destruct hObject as [cell|]; wp_run.
  all: unfold CKR_OK in *; cbn; subst; intros Hinit Hfound.
  all: try reflexivity; try congruence.
  all: exfalso;
    match goal with
    | H : 1 < ?f |- _ => specialize (Hfound f (or_introl eq_refl)); lia
    end.
Qed.

(** ** Properties of the unwrap templates *)

(** The arrays the [switch] writes are what the variants are meant to be:
    each lists the class [CKO_PRIVATE_KEY] and the key type [CKK_RSA]; with
    the [CKA_EXTRACTABLE] entry left out they are one and the same list; and
    [CKA_EXTRACTABLE] is [true_val] for [VALID], [false_val] for
    [INCONSISTENT] and not listed for [INCOMPLETE]. *)
Lemma written_templates_differ_only_in_extractable :
  forall (dm : data_model) (template_type : TEMPLATE_TYPE),
    snd (unwrap_template dm template_type)
      = array_count (fst (unwrap_template dm template_type)) /\
    attribute CKA_CLASS (fst (unwrap_template dm template_type))
      = Some (PClass CKO_PRIVATE_KEY) /\
    attribute CKA_KEY_TYPE (fst (unwrap_template dm template_type))
      = Some (PKeyType CKK_RSA) /\
    without CKA_EXTRACTABLE (fst (unwrap_template dm template_type))
      = without CKA_EXTRACTABLE (fst (unwrap_template dm VALID)) /\
    attribute CKA_EXTRACTABLE
      (without CKA_EXTRACTABLE (fst (unwrap_template dm template_type))) = None /\
    attribute CKA_EXTRACTABLE (fst (unwrap_template dm template_type))
      = match template_type with
        | VALID => Some (PBool true_val)
        | INCONSISTENT => Some (PBool false_val)
        | INCOMPLETE => None
        end /\
    true_val <> false_val.
Proof.
  intros dm template_type.
  destruct template_type; repeat split; discriminate.
Qed.


(** ** Properties of the orchestrated sequence *)

(** C3. In a process whose [malloc] returns [NULL], on a module where every
    call succeeds, the allocation of the wrapped-key buffer fails,
    "Could not allocate memory to hold wrapped key" is printed, and
    [aes_wrap_unwrap_with_trusted] returns the [CKR_OK] left in [rv] by the
    size query; [main] then exits with [EXIT_SUCCESS]. *)
Theorem failed_allocation_returns_CKR_OK :
  observe allocation
    (calls hsm_malloc_fails (aes_wrap_unwrap_with_trusted LP64 1 "wrapping-key"))
    = [(8, false)] /\
  In {| to := stderr;
        format := "Could not allocate memory to hold wrapped key\n";
        args := [] |}
     (diagnostics hsm_malloc_fails
        (aes_wrap_unwrap_with_trusted LP64 1 "wrapping-key")) /\
  observe unwrap
    (calls hsm_malloc_fails (aes_wrap_unwrap_with_trusted LP64 1 "wrapping-key"))
    = [] /\
  result hsm_malloc_fails (aes_wrap_unwrap_with_trusted LP64 1 "wrapping-key")
    = CKR_OK /\
  result hsm_malloc_fails (main LP64 ["unwrap_with_template"]) = EXIT_SUCCESS.
Proof. vm_compute. repeat split. right. left. reflexivity. Qed.

(** Whatever the module, a run whose allocation of the wrapped-key buffer
    fails returns [CKR_OK]. *)
Lemma failed_allocation_reported_as_success :
  forall (dm : data_model) (env : environment) (session : CK_SESSION_HANDLE)
         (label : string) (size : CK_ULONG),
    observe allocation
      (calls env (aes_wrap_unwrap_with_trusted dm session label))
      = [(size, false)] ->
    result env (aes_wrap_unwrap_with_trusted dm session label) = CKR_OK.
Proof.
  intros dm env session label size.
  after_lookup env session label rv cell tr Htr.
  by_wp. wp_run.
  all: observers; intros Halloc; try discriminate; assumption.
Qed.

(** C4. On a module where the valid template unwraps to object 21 and the
    incomplete template to object 23, the extractability check that follows
    the incomplete-template unwrap queries object 21, the handle of the
    valid-template unwrap, not object 23. *)
Theorem incomplete_check_queries_valid_handle :
  unwrapped (calls hsm (aes_wrap_unwrap_with_trusted LP64 1 "wrapping-key"))
    = [(CKR_OK, 21); (CKR_TEMPLATE_INCONSISTENT, CK_INVALID_HANDLE);
       (CKR_OK, 23)] /\
  queried (calls hsm (aes_wrap_unwrap_with_trusted LP64 1 "wrapping-key"))
    = [(7, CKA_TRUSTED); (21, CKA_EXTRACTABLE); (21, CKA_EXTRACTABLE)] /\
  result hsm (aes_wrap_unwrap_with_trusted LP64 1 "wrapping-key") = CKR_OK.
Proof. repeat split. Qed.

(** Whatever the module, when both extractability queries are made they name
    the same object, the one the valid-template unwrap left: the second
    query never depends on what the incomplete-template unwrap produced. *)
Lemma extractable_queries_name_one_object :
  forall (dm : data_model) (env : environment) (session : CK_SESSION_HANDLE)
         (wrapping_key : CK_OBJECT_HANDLE) (wrapped_key : option (list CK_BYTE))
         (wrapped_len : CK_ULONG) (h1 h2 : CK_OBJECT_HANDLE),
    queried (calls env (aes_template_unwrap dm session wrapping_key
                          wrapped_key wrapped_len))
      = [(h1, CKA_EXTRACTABLE); (h2, CKA_EXTRACTABLE)] ->
    h2 = h1 /\
    exists s, hd_error (unwrapped (calls env
                (aes_template_unwrap dm session wrapping_key
                   wrapped_key wrapped_len))) = Some (s, h1).
Proof.
  intros dm env session wrapping_key wrapped_key wrapped_len h1 h2.
  unfold queried, unwrapped. by_wp. wp_run.
  all: cbn; intros H; try discriminate.
  all: inversion H; subst; split; [reflexivity | eexists; reflexivity].
Qed.

(** C5, as stated, fails. When the search for the wrapping key cannot be
    initiated, the lookup step of the main sequence fails and
    [aes_wrap_unwrap_with_trusted] returns at once: no destruction is
    attempted. *)
Lemma failed_lookup_skips_cleanup :
  lookup_status hsm_search_init_fails 1 "wrapping-key" <> CKR_OK /\
  result hsm_search_init_fails
    (aes_wrap_unwrap_with_trusted LP64 1 "wrapping-key") <> CKR_OK /\
  destroyed
    (calls hsm_search_init_fails
       (aes_wrap_unwrap_with_trusted LP64 1 "wrapping-key")) = [].
Proof. repeat split; discriminate. Qed.

(** C5, amended. Whenever the lookup of the wrapping key succeeds, whichever
    later step fails and whatever the two destructions answer, the run
    attempts exactly two destructions, in the caller's session: first of the
    public key handle, then of the private key handle. *)
Theorem cleanup_destroys_both_keys_once :
  forall (dm : data_model) (env : environment) (session : CK_SESSION_HANDLE)
         (label : string),
    lookup_status env session label = CKR_OK ->
    destroyed (calls env (aes_wrap_unwrap_with_trusted dm session label))
      = [ (session,
           fst (generated_keys
                  (calls env (aes_wrap_unwrap_with_trusted dm session label))));
          (session,
           snd (generated_keys
                  (calls env (aes_wrap_unwrap_with_trusted dm session label)))) ].
Proof.
  intros dm env session label.
  after_lookup env session label rv cell tr Htr.
  intros Hrv. by_wp. wp_run.
  all: try (unfold CKR_OK in *; congruence).
  all: observers; reflexivity.
Qed.

Lemma cleanup_destroys_both_keys_once_witness :
  lookup_status hsm_destroy_fails 1 "wrapping-key" = CKR_OK /\
  destroyed
    (calls hsm_destroy_fails (aes_wrap_unwrap_with_trusted LP64 1 "wrapping-key"))
    = [(1, 11); (1, 12)].
Proof.
  split; [reflexivity|].
  apply (cleanup_destroys_both_keys_once LP64 hsm_destroy_fails 1 "wrapping-key").
  reflexivity.
Defined.

(** On a module that refuses the destruction of the public key, the
    destruction of the private key is attempted all the same, and the status
    of the main sequence is returned. *)
Example private_key_destroyed_after_public_failure :
  observe destruction
    (calls hsm_destroy_fails (aes_wrap_unwrap_with_trusted LP64 1 "wrapping-key"))
    = [(1, 11, 130); (1, 12, 130)] /\
  result hsm_destroy_fails (aes_wrap_unwrap_with_trusted LP64 1 "wrapping-key")
    = CKR_OK.
Proof. split; reflexivity. Qed.

(** C10. Whenever the lookup succeeds, so that the cleanup block is reached,
    and key-pair generation has not run, or has run and failed leaving
    [CK_INVALID_HANDLE] in both handle variables, the run still attempts two
    destructions, each of [CK_INVALID_HANDLE]. *)
Theorem cleanup_destroys_invalid_handles_when_nothing_generated :
  forall (dm : data_model) (env : environment) (session : CK_SESSION_HANDLE)
         (label : string),
    lookup_status env session label = CKR_OK ->
    nothing_generated
      (calls env (aes_wrap_unwrap_with_trusted dm session label)) ->
    destroyed (calls env (aes_wrap_unwrap_with_trusted dm session label))
      = [(session, CK_INVALID_HANDLE); (session, CK_INVALID_HANDLE)].
Proof.
  intros dm env session label.
  after_lookup env session label rv cell tr Htr.
  intros Hrv. by_wp. wp_run.
  all: try (unfold CKR_OK in *; congruence).
  all: observers; intros Hgen; clear_up; cbn [fst snd] in *; subst.
  all: first [reflexivity | congruence].
Qed.

Lemma cleanup_destroys_invalid_handles_when_nothing_generated_witness :
  lookup_status hsm_untrusted 1 "wrapping-key" = CKR_OK /\
  nothing_generated
    (calls hsm_untrusted (aes_wrap_unwrap_with_trusted LP64 1 "wrapping-key")) /\
  destroyed
    (calls hsm_untrusted (aes_wrap_unwrap_with_trusted LP64 1 "wrapping-key"))
    = [(1, CK_INVALID_HANDLE); (1, CK_INVALID_HANDLE)].
Proof.
  split; [reflexivity|]. split; [constructor|].
  apply (cleanup_destroys_invalid_handles_when_nothing_generated
           LP64 hsm_untrusted 1 "wrapping-key").
  - reflexivity.
  - constructor.
Defined.

(** C6. Whatever status [s] the inconsistent-template unwrap answers with
    ([CKR_OK], [CKR_TEMPLATE_INCONSISTENT] or anything else), the run goes on
    to the incomplete-template unwrap, and the status it returns is not
    taken from [s]: it is the status of the incomplete-template unwrap when
    that fails, and the status of the extractability query that follows it
    otherwise. *)
Theorem inconsistent_unwrap_status_is_superseded :
  forall (dm : data_model) (env : environment) (session : CK_SESSION_HANDLE)
         (label : string) (s : CK_RV) (h : CK_OBJECT_HANDLE),
    In (unwrap_template dm INCONSISTENT, s, h)
       (observe unwrap
          (calls env (aes_wrap_unwrap_with_trusted dm session label))) ->
    exists valid s' h',
      observe unwrap (calls env (aes_wrap_unwrap_with_trusted dm session label))
        = [ valid;
            (unwrap_template dm INCONSISTENT, s, h);
            (unwrap_template dm INCOMPLETE, s', h') ] /\
      ((s' <> CKR_OK /\
        result env (aes_wrap_unwrap_with_trusted dm session label) = s') \/
       (s' = CKR_OK /\
        exists q1 q2 q3,
          observe query
            (calls env (aes_wrap_unwrap_with_trusted dm session label))
            = [q1; q2; q3] /\
          result env (aes_wrap_unwrap_with_trusted dm session label) = snd q3)).
Proof.
  intros dm env session label s h.
  after_lookup env session label rv cell tr Htr.
  by_wp. wp_run.
  all: observers; unfold unwrap_template, true_val, false_val; cbn [In].
  all: intros Hin; clear_up; try discriminate.
  all: do 3 eexists; (split; [reflexivity|]).
  all: first
         [ left; split; [assumption | reflexivity]
         | right; split;
           [first [assumption | reflexivity] | do 3 eexists; split; reflexivity] ].
Qed.

Lemma inconsistent_unwrap_status_is_superseded_witness :
  exists valid s' h',
    observe unwrap (calls hsm (aes_wrap_unwrap_with_trusted LP64 1 "wrapping-key"))
      = [ valid;
          (unwrap_template LP64 INCONSISTENT, CKR_TEMPLATE_INCONSISTENT,
           CK_INVALID_HANDLE);
          (unwrap_template LP64 INCOMPLETE, s', h') ] /\
    ((s' <> CKR_OK /\
      result hsm (aes_wrap_unwrap_with_trusted LP64 1 "wrapping-key") = s') \/
     (s' = CKR_OK /\
      exists q1 q2 q3,
        observe query
          (calls hsm (aes_wrap_unwrap_with_trusted LP64 1 "wrapping-key"))
          = [q1; q2; q3] /\
        result hsm (aes_wrap_unwrap_with_trusted LP64 1 "wrapping-key") = snd q3)).
Proof.
  apply (inconsistent_unwrap_status_is_superseded LP64 hsm 1 "wrapping-key"
           CKR_TEMPLATE_INCONSISTENT CK_INVALID_HANDLE).
  vm_compute. right. left. reflexivity.
Defined.

(** C9. Every call of [get_attribute] sends one attribute whose
    [ulValueLen] is the size of a pointer, whatever object [attr_value]
    points to; and every attribute query of a run of
    [aes_wrap_unwrap_with_trusted] asks for [CKA_TRUSTED] or
    [CKA_EXTRACTABLE], announces the size of a pointer, and points to a
    one-byte [CK_BBOOL] variable, which is smaller. *)
Theorem get_attribute_announces_pointer_size :
  forall (dm : data_model) (env : environment) (session : CK_SESSION_HANDLE),
    (forall (key_handle : CK_OBJECT_HANDLE) (attr_type : CK_ATTRIBUTE_TYPE)
            (attr_value : list CK_BYTE),
        map (fun q => snd (fst q))
          (observe query
             (calls env (get_attribute dm session key_handle attr_type attr_value)))
        = [ {| type := attr_type;
               pValue := PObject attr_value;
               ulValueLen := sizeof_pointer dm |} ]) /\
    (forall label : string,
        Forall
          (fun q =>
             (type (snd (fst q)) = CKA_TRUSTED \/
              type (snd (fst q)) = CKA_EXTRACTABLE) /\
             ulValueLen (snd (fst q)) = sizeof_pointer dm /\
             sizeof_pointee dm (pValue (snd (fst q))) = sizeof_CK_BBOOL /\
             sizeof_CK_BBOOL < ulValueLen (snd (fst q)))
          (observe query
             (calls env (aes_wrap_unwrap_with_trusted dm session label)))).
Proof.
  intros dm env session. split.
  - intros key_handle attr_type attr_value. by_wp. wp_run. reflexivity.
  - intros label.
    after_lookup env session label rv cell tr Htr.
    by_wp. wp_run.
    all: observers; repeat first [apply Forall_nil | apply Forall_cons].
    all: cbn; repeat split; auto; destruct dm; reflexivity.
Qed.

(** ** Further properties *)

Ltac wp_enter :=
  lazymatch goal with
  | |- wp _ (aes_wrap_unwrap_with_trusted _ _ _) _ _ =>
      unfold aes_wrap_unwrap_with_trusted
  | |- wp _ (main _ _) _ _ => unfold main
  end; tidy.

(** Run a whole program from the empty history, the lookup included. *)
Ltac wp_all := repeat first [wp_step | wp_done | wp_enter].

(** Evaluate the views of a fully known trace. *)
Ltac views :=
  unfold destroyed, generated_keys, queried, unwrapped, nothing_generated,
    first_failure, last_calls;
  cbn [observe flat_map app map fst snd List.length skipn Nat.sub
         destruction generation query unwrap allocation search search_init
         search_final status main_status call_session live_templates
         unwrap_storage stored_past_end
         generation_request wrap_request wrap_answer unwrap_request
         query_answer allocated released opened finalized initialized fetched
         parsed login
         searched_label ev_call ev_resp].

(** *** The key locator *)

(** X1. A [NULL] output pointer is refused with [CKR_ARGUMENTS_BAD] before
    any call is made and before anything is printed. *)
Theorem null_output_pointer_is_refused_without_calls :
  forall (env : environment) (hSession : CK_SESSION_HANDLE) (label : string),
    result env (find_wrapping_key_with_label hSession label None)
      = (CKR_ARGUMENTS_BAD, None) /\
    calls env (find_wrapping_key_with_label hSession label None) = [] /\
    diagnostics env (find_wrapping_key_with_label hSession label None) = [] /\
    CKR_ARGUMENTS_BAD <> CKR_OK.
Proof. intros. repeat split. discriminate. Qed.

(** X2. The first status other than [CKR_OK] that the module answers during
    a lookup is the status the locator returns: module errors are passed on
    unchanged, and the status of a finalization made after a failure does
    not replace it. *)
Theorem locator_returns_first_module_failure :
  forall (env : environment) (hSession : CK_SESSION_HANDLE) (label : string)
         (hObject : option CK_OBJECT_HANDLE) (s : CK_RV),
    first_failure
      (observe status
         (calls env (find_wrapping_key_with_label hSession label hObject)))
      = Some s ->
    fst (result env (find_wrapping_key_with_label hSession label hObject)) = s /\
    s <> CKR_OK.
Proof.
  intros env hSession label hObject s. by_wp.
  destruct hObject as [cell|]; wp_run.
  all: views; unfold CKR_OK in *; subst; cbn [find].
  all: repeat match goal with
         | |- context [?a =? 0] => destruct (Z.eqb_spec a 0); subst; cbn [negb]
         end.
  all: intros Hfirst; inversion Hfirst; subst; try (split; congruence).
Qed.

Lemma locator_returns_first_module_failure_witness :
  fst (result hsm_search_init_fails
         (find_wrapping_key_with_label 1 "wrapping-key" (Some CK_INVALID_HANDLE)))
    = 48 /\
  48 <> CKR_OK.
Proof.
  apply (locator_returns_first_module_failure hsm_search_init_fails 1
           "wrapping-key" (Some CK_INVALID_HANDLE) 48).
  reflexivity.
Defined.

(** X3. When the search cannot be initiated, the locator makes no further
    call: it neither searches nor finalizes a search that was never opened,
    and it leaves the output cell as it was. *)
Theorem failed_initiation_ends_the_lookup :
  forall (env : environment) (hSession : CK_SESSION_HANDLE) (label : string)
         (cell : CK_OBJECT_HANDLE) (s : CK_RV),
    observe search_init
      (calls env (find_wrapping_key_with_label hSession label (Some cell)))
      = [s] ->
    s <> CKR_OK ->
    result env (find_wrapping_key_with_label hSession label (Some cell))
      = (s, Some cell) /\
    List.length (calls env (find_wrapping_key_with_label hSession label (Some cell)))
      = 1%nat.
Proof.
  intros env hSession label cell s. by_wp. wp_run.
  all: views; intros Hinit Hs; inversion Hinit; subst; try congruence.
  split; reflexivity.
Qed.

Lemma failed_initiation_ends_the_lookup_witness :
  result hsm_search_init_fails
    (find_wrapping_key_with_label 1 "wrapping-key" (Some CK_INVALID_HANDLE))
    = (48, Some CK_INVALID_HANDLE) /\
  List.length
    (calls hsm_search_init_fails
       (find_wrapping_key_with_label 1 "wrapping-key" (Some CK_INVALID_HANDLE)))
    = 1%nat.
Proof.
  apply (failed_initiation_ends_the_lookup hsm_search_init_fails 1
           "wrapping-key" CK_INVALID_HANDLE 48).
  - reflexivity.
  - discriminate.
Defined.

(** X4. A lookup that returns [CKR_OK] has gone through the whole protocol:
    exactly four calls, in the caller's session, each answered [CKR_OK]: the
    initiation with a one-attribute filter on the label and its [strlen],
    the probe for up to two objects with a [NULL] output, which reported at
    most one, the search for one object into the output cell, and the
    finalization.  The output cell then holds the first handle the module
    stored, or its old content if it stored none. *)
Theorem successful_lookup_follows_the_protocol :
  forall (env : environment) (hSession : CK_SESSION_HANDLE) (label : string)
         (hObject : option CK_OBJECT_HANDLE),
    fst (result env (find_wrapping_key_with_label hSession label hObject))
      = CKR_OK ->
    exists cell stored probed found,
      hObject = Some cell /\
      map (fun e => ev_call e)
        (calls env (find_wrapping_key_with_label hSession label hObject))
        = [ C_FindObjectsInit hSession
              [ {| type := CKA_LABEL; pValue := PString label;
                   ulValueLen := strlen label |} ] 1;
            C_FindObjects hSession None 2 0;
            C_FindObjects hSession (Some cell) 1 0;
            C_FindObjectsFinal hSession ] /\
      observe status
        (calls env (find_wrapping_key_with_label hSession label hObject))
        = [CKR_OK; CKR_OK; CKR_OK; CKR_OK] /\
      observe search
        (calls env (find_wrapping_key_with_label hSession label hObject))
        = [(None, 2, CKR_OK, probed); (Some cell, 1, CKR_OK, found)] /\
      probed <= 1 /\
      observe fetched
        (calls env (find_wrapping_key_with_label hSession label hObject))
        = [stored] /\
      snd (result env (find_wrapping_key_with_label hSession label hObject))
        = Some (hd cell stored).
Proof.
  intros env hSession label hObject. by_wp.
  destruct hObject as [cell|]; wp_run.
  all: views; unfold CKR_OK, CKR_GENERAL_ERROR, CKR_ARGUMENTS_BAD in *.
  all: intros Hok; subst; try congruence; try discriminate.
  all: do 4 eexists; repeat split; try reflexivity; assumption.
Qed.

Lemma successful_lookup_follows_the_protocol_witness :
  exists cell stored probed found,
    Some CK_INVALID_HANDLE = Some cell /\
    map (fun e => ev_call e)
      (calls hsm (find_wrapping_key_with_label 1 "wrapping-key"
                    (Some CK_INVALID_HANDLE)))
      = [ C_FindObjectsInit 1
            [ {| type := CKA_LABEL; pValue := PString "wrapping-key";
                 ulValueLen := strlen "wrapping-key" |} ] 1;
          C_FindObjects 1 None 2 0;
          C_FindObjects 1 (Some cell) 1 0;
          C_FindObjectsFinal 1 ] /\
    observe status
      (calls hsm (find_wrapping_key_with_label 1 "wrapping-key"
                    (Some CK_INVALID_HANDLE)))
      = [CKR_OK; CKR_OK; CKR_OK; CKR_OK] /\
    observe search
      (calls hsm (find_wrapping_key_with_label 1 "wrapping-key"
                    (Some CK_INVALID_HANDLE)))
      = [(None, 2, CKR_OK, probed); (Some cell, 1, CKR_OK, found)] /\
    probed <= 1 /\
    observe fetched
      (calls hsm (find_wrapping_key_with_label 1 "wrapping-key"
                    (Some CK_INVALID_HANDLE)))
      = [stored] /\
    snd (result hsm (find_wrapping_key_with_label 1 "wrapping-key"
                       (Some CK_INVALID_HANDLE)))
      = Some (hd cell stored).
Proof.
  apply (successful_lookup_follows_the_protocol hsm 1 "wrapping-key"
           (Some CK_INVALID_HANDLE)).
  reflexivity.
Defined.

(** *** Key-pair generation and the templates sent *)

(** X5. [generate_rsa_keypair] makes one call, a key-pair generation with the
    RSA X9.31 mechanism.  The public template asks for a token object that
    can verify, with the requested modulus size and the public exponent
    0x010001; the private template asks for a token object that can sign, is
    extractable and may only be wrapped by trusted keys.  Status and handles
    are returned as the module answered them. *)
Theorem generated_pair_is_extractable_and_wrapped_with_trusted :
  forall (dm : data_model) (env : environment) (session : CK_SESSION_HANDLE)
         (key_length_bits : CK_ULONG) (public_key private_key : CK_OBJECT_HANDLE),
  exists pub priv,
    observe generation_request
      (calls env (generate_rsa_keypair dm session key_length_bits
                    public_key private_key))
      = [({| mechanism := CKM_RSA_X9_31_KEY_PAIR_GEN; ulParameterLen := 0 |},
          pub, priv)] /\
    List.length
      (calls env (generate_rsa_keypair dm session key_length_bits
                    public_key private_key)) = 1%nat /\
    map type pub
      = [CKA_TOKEN; CKA_VERIFY; CKA_MODULUS_BITS; CKA_PUBLIC_EXPONENT] /\
    attribute CKA_TOKEN pub = Some (PBool true_val) /\
    attribute CKA_VERIFY pub = Some (PBool true_val) /\
    attribute CKA_MODULUS_BITS pub = Some (PULong key_length_bits) /\
    attribute CKA_PUBLIC_EXPONENT pub = Some (PBytes [1; 0; 1]) /\
    map type priv
      = [CKA_TOKEN; CKA_SIGN; CKA_EXTRACTABLE; CKA_WRAP_WITH_TRUSTED] /\
    Forall (fun a => pValue a = PBool true_val) priv /\
    observe generation
      (calls env (generate_rsa_keypair dm session key_length_bits
                    public_key private_key))
      = [result env (generate_rsa_keypair dm session key_length_bits
                       public_key private_key)].
Proof.
  intros. do 2 eexists.
  repeat match goal with |- _ /\ _ => split end.
  1, 2, 10: by_wp; wp_run; views; reflexivity.
  all: try reflexivity.
  repeat constructor.
Qed.

(** X6. Every input template a run hands to the module in live storage
    (the label filter of the search and the two generation templates)
    announces a count equal to its number of entries, and in each entry a
    length equal to the size of the value it points to; the templates of
    the unwraps are all handed over after their lifetime has ended. *)
Theorem live_input_templates_announce_true_sizes :
  forall (dm : data_model) (env : environment) (session : CK_SESSION_HANDLE)
         (label : string),
    Forall
      (fun t =>
         snd t = array_count (fst t) /\
         Forall (fun a => ulValueLen a = sizeof_pointee dm (pValue a)) (fst t))
      (flat_map live_templates
         (calls env (aes_wrap_unwrap_with_trusted dm session label))) /\
    Forall (fun u => snd u = Ended)
      (observe unwrap_storage
         (calls env (aes_wrap_unwrap_with_trusted dm session label))) /\
    map (fun t => map type (fst t))
      (flat_map live_templates
         (calls env (aes_wrap_unwrap_with_trusted dm session label)))
    = firstn
        (List.length
           (flat_map live_templates
              (calls env (aes_wrap_unwrap_with_trusted dm session label))))
        [ [CKA_LABEL];
          [CKA_TOKEN; CKA_VERIFY; CKA_MODULUS_BITS; CKA_PUBLIC_EXPONENT];
          [CKA_TOKEN; CKA_SIGN; CKA_EXTRACTABLE; CKA_WRAP_WITH_TRUSTED] ].
Proof.
  intros dm env session label. by_wp. wp_all.
  all: views.
  all: repeat first [apply Forall_nil | apply Forall_cons | split]; reflexivity.
Qed.

(** *** The orchestrated sequence *)

Lemma deref_overwrite (stored : list CK_BYTE) :
  deref false_val (overwrite (address_of false_val) stored) = read_back stored.
Proof. destruct stored; reflexivity. Qed.

Lemma observe_after_search {B : Type} (f : event -> option B)
    (tr rest : list event) :
  (forall e, is_search e = true -> f e = None) ->
  forallb is_search tr = true ->
  observe f (tr ++ rest) = observe f rest.
Proof.
  intros Hf Htr. rewrite observe_app, (observe_search f tr Hf Htr). reflexivity.
Qed.

Ltac blind := intros [[] ?]; (discriminate || reflexivity).

(** Evaluate the views of a trace made of a search prefix [tr] followed by
    known events, for views that see no search call. *)
Ltac past_lookup tr Htr :=
  rewrite <- ?app_assoc; cbn [app];
  unfold destroyed, generated_keys, queried, unwrapped;
  repeat match goal with
    | |- context [observe ?f (tr ++ ?rest)] =>
        rewrite (observe_after_search f tr rest ltac:(blind) Htr)
    | |- context [observe ?f tr] =>
        rewrite (observe_search f tr ltac:(blind) Htr)
    end;
  rewrite ?deref_overwrite in *;
  cbn [observe flat_map app map fst snd hd hd_error nth_error List.length
         destruction generation query unwrap allocation generation_request
         wrap_request wrap_answer unwrap_request query_answer allocated
         released ev_call ev_resp type].

(** X7. If the query for [CKA_TRUSTED] on the wrapping key succeeds and the
    value read back is not [true_val], the run returns [CKR_GENERAL_ERROR]
    and attempts no key generation, no wrap, no allocation and no unwrap. *)
Theorem untrusted_wrapping_key_is_never_used :
  forall (dm : data_model) (env : environment) (session : CK_SESSION_HANDLE)
         (label : string) (h : CK_OBJECT_HANDLE) (stored : list CK_BYTE),
    hd_error
      (observe query_answer
         (calls env (aes_wrap_unwrap_with_trusted dm session label)))
      = Some (h, CKA_TRUSTED, CKR_OK, stored) ->
    read_back stored <> true_val ->
    result env (aes_wrap_unwrap_with_trusted dm session label)
      = CKR_GENERAL_ERROR /\
    observe generation
      (calls env (aes_wrap_unwrap_with_trusted dm session label)) = [] /\
    observe wrap_request
      (calls env (aes_wrap_unwrap_with_trusted dm session label)) = [] /\
    observe allocated
      (calls env (aes_wrap_unwrap_with_trusted dm session label)) = [] /\
    observe unwrap
      (calls env (aes_wrap_unwrap_with_trusted dm session label)) = [].
Proof.
  intros dm env session label h stored.
  after_lookup env session label rv cell tr Htr.
  by_wp. wp_run.
  all: past_lookup tr Htr; intros Hq Hv; try discriminate.
  all: inversion Hq; subst; try congruence.
  all: repeat split.
Qed.

Lemma untrusted_wrapping_key_is_never_used_witness :
  result hsm_untrusted (aes_wrap_unwrap_with_trusted LP64 1 "wrapping-key")
    = CKR_GENERAL_ERROR /\
  observe generation
    (calls hsm_untrusted (aes_wrap_unwrap_with_trusted LP64 1 "wrapping-key"))
    = [] /\
  observe wrap_request
    (calls hsm_untrusted (aes_wrap_unwrap_with_trusted LP64 1 "wrapping-key"))
    = [] /\
  observe allocated
    (calls hsm_untrusted (aes_wrap_unwrap_with_trusted LP64 1 "wrapping-key"))
    = [] /\
  observe unwrap
    (calls hsm_untrusted (aes_wrap_unwrap_with_trusted LP64 1 "wrapping-key"))
    = [].
Proof.
  apply (untrusted_wrapping_key_is_never_used LP64 hsm_untrusted 1
           "wrapping-key" 7 [false_val]).
  - reflexivity.
  - discriminate.
Defined.

(** X8. A key pair is generated only for a trusted wrapping key: in every
    run that attempts a key generation, the first attribute query asked for
    [CKA_TRUSTED], succeeded, and read back [true_val]. *)
Theorem generation_requires_confirmed_trust :
  forall (dm : data_model) (env : environment) (session : CK_SESSION_HANDLE)
         (label : string),
    observe generation
      (calls env (aes_wrap_unwrap_with_trusted dm session label)) <> [] ->
    exists h stored,
      hd_error
        (observe query_answer
           (calls env (aes_wrap_unwrap_with_trusted dm session label)))
        = Some (h, CKA_TRUSTED, CKR_OK, stored) /\
      read_back stored = true_val.
Proof.
  intros dm env session label.
  after_lookup env session label rv cell tr Htr.
  by_wp. wp_run.
  all: past_lookup tr Htr; intros Hgen; try (exfalso; apply Hgen; reflexivity).
  all: subst; do 2 eexists; split; [reflexivity | assumption].
Qed.

Lemma generation_requires_confirmed_trust_witness :
  exists h stored,
    hd_error
      (observe query_answer
         (calls hsm (aes_wrap_unwrap_with_trusted LP64 1 "wrapping-key")))
      = Some (h, CKA_TRUSTED, CKR_OK, stored) /\
    read_back stored = true_val.
Proof.
  apply (generation_requires_confirmed_trust LP64 hsm 1 "wrapping-key").
  vm_compute. discriminate.
Defined.

(** X9. On a run where no attribute query stores past the end of the
    one-byte variable it was pointed to, the key whose [CKA_TRUSTED]
    attribute is checked is the key every wrap and every unwrap of the run
    is made with, always under the CloudHSM AES key-wrap mechanism with
    PKCS#5 padding and no parameter; and the key handed to each wrap is the
    private key handle left by key-pair generation. *)
Theorem checked_key_wraps_generated_private_key :
  forall (dm : data_model) (env : environment) (session : CK_SESSION_HANDLE)
         (label : string),
    stores_fit (calls env (aes_wrap_unwrap_with_trusted dm session label)) ->
    Forall
      (fun w =>
         w = ({| mechanism := CKM_CLOUDHSM_AES_KEY_WRAP_PKCS5_PAD;
                 ulParameterLen := 0 |},
              fst (hd (CK_INVALID_HANDLE, CKA_TRUSTED)
                     (queried
                        (calls env
                           (aes_wrap_unwrap_with_trusted dm session label)))),
              snd (generated_keys
                     (calls env (aes_wrap_unwrap_with_trusted dm session label))),
              snd (fst w), snd w))
      (observe wrap_request
         (calls env (aes_wrap_unwrap_with_trusted dm session label))) /\
    Forall
      (fun u =>
         u = ({| mechanism := CKM_CLOUDHSM_AES_KEY_WRAP_PKCS5_PAD;
                 ulParameterLen := 0 |},
              fst (hd (CK_INVALID_HANDLE, CKA_TRUSTED)
                     (queried
                        (calls env
                           (aes_wrap_unwrap_with_trusted dm session label)))),
              snd (fst u), snd u))
      (observe unwrap_request
         (calls env (aes_wrap_unwrap_with_trusted dm session label))).
Proof.
  intros dm env session label.
  after_lookup env session label rv cell tr Htr.
  by_wp. wp_run.
  all: intros _; past_lookup tr Htr.
  all: split; repeat first [apply Forall_nil | apply Forall_cons]; reflexivity.
Qed.

Lemma checked_key_wraps_generated_private_key_witness :
  stores_fit (calls hsm (aes_wrap_unwrap_with_trusted LP64 1 "wrapping-key")) /\
  Forall
    (fun w =>
       w = ({| mechanism := CKM_CLOUDHSM_AES_KEY_WRAP_PKCS5_PAD;
               ulParameterLen := 0 |},
            fst (hd (CK_INVALID_HANDLE, CKA_TRUSTED)
                   (queried
                      (calls hsm
                         (aes_wrap_unwrap_with_trusted LP64 1 "wrapping-key")))),
            snd (generated_keys
                   (calls hsm
                      (aes_wrap_unwrap_with_trusted LP64 1 "wrapping-key"))),
            snd (fst w), snd w))
    (observe wrap_request
       (calls hsm (aes_wrap_unwrap_with_trusted LP64 1 "wrapping-key"))) /\
  Forall
    (fun u =>
       u = ({| mechanism := CKM_CLOUDHSM_AES_KEY_WRAP_PKCS5_PAD;
               ulParameterLen := 0 |},
            fst (hd (CK_INVALID_HANDLE, CKA_TRUSTED)
                   (queried
                      (calls hsm
                         (aes_wrap_unwrap_with_trusted LP64 1 "wrapping-key")))),
            snd (fst u), snd u))
    (observe unwrap_request
       (calls hsm (aes_wrap_unwrap_with_trusted LP64 1 "wrapping-key"))).
Proof.
  assert (Hfit : stores_fit
            (calls hsm (aes_wrap_unwrap_with_trusted LP64 1 "wrapping-key")))
    by (vm_compute; repeat constructor).
  split; [exact Hfit|].
  apply (checked_key_wraps_generated_private_key LP64 hsm 1 "wrapping-key" Hfit).
Defined.

(** X10. The wrapped-key buffer has exactly the size the module asked for:
    whenever a run allocates, the first wrap was a size query (a [NULL]
    buffer and a length of zero) that succeeded, the allocation asks for the
    length that query stored, and a second wrap, if made, is given the
    allocated block and that same length. *)
Theorem buffer_is_allocated_with_the_queried_size :
  forall (dm : data_model) (env : environment) (session : CK_SESSION_HANDLE)
         (label : string) (size : CK_ULONG) (block : option (list CK_BYTE)),
    In (size, block)
       (observe allocated
          (calls env (aes_wrap_unwrap_with_trusted dm session label))) ->
    (exists m k t,
        hd_error
          (observe wrap_request
             (calls env (aes_wrap_unwrap_with_trusted dm session label)))
        = Some (m, k, t, None, 0)) /\
    (exists stored,
        hd_error
          (observe wrap_answer
             (calls env (aes_wrap_unwrap_with_trusted dm session label)))
        = Some (CKR_OK, stored, size)) /\
    (forall m k t buffer len,
        nth_error
          (observe wrap_request
             (calls env (aes_wrap_unwrap_with_trusted dm session label))) 1
        = Some (m, k, t, buffer, len) ->
        buffer = block /\ block <> None /\ len = size) /\
    (block = None ->
     List.length
       (observe wrap_request
          (calls env (aes_wrap_unwrap_with_trusted dm session label))) = 1%nat).
Proof.
  intros dm env session label size block.
  after_lookup env session label rv cell tr Htr.
  by_wp. wp_run.
  all: past_lookup tr Htr; cbn [In]; intros Hin; clear_up; try discriminate.
  all: subst;
    (split; [do 3 eexists; reflexivity
            | split; [eexists; reflexivity | split]]).
  all: try (intros m k t buffer len Hnth; try discriminate;
            inversion Hnth; subst; repeat split; discriminate).
  all: intros Hnone; try discriminate; reflexivity.
Qed.

Lemma buffer_is_allocated_with_the_queried_size_witness :
  (exists m k t,
      hd_error
        (observe wrap_request
           (calls hsm (aes_wrap_unwrap_with_trusted LP64 1 "wrapping-key")))
      = Some (m, k, t, None, 0)) /\
  (exists stored,
      hd_error
        (observe wrap_answer
           (calls hsm (aes_wrap_unwrap_with_trusted LP64 1 "wrapping-key")))
      = Some (CKR_OK, stored, 8)) /\
  (forall m k t buffer len,
      nth_error
        (observe wrap_request
           (calls hsm (aes_wrap_unwrap_with_trusted LP64 1 "wrapping-key"))) 1
      = Some (m, k, t, buffer, len) ->
      buffer = Some (repeat 0 8%nat) /\ Some (repeat 0 8%nat) <> None /\ len = 8) /\
  (Some (repeat 0 8%nat) = None ->
   List.length
     (observe wrap_request
        (calls hsm (aes_wrap_unwrap_with_trusted LP64 1 "wrapping-key"))) = 1%nat).
Proof.
  apply (buffer_is_allocated_with_the_queried_size LP64 hsm 1 "wrapping-key"
           8 (Some (repeat 0 8%nat))).
  vm_compute. left. reflexivity.
Defined.

(** X11. The wrapped-key buffer is released exactly when it was obtained: on
    every path the run allocates at most once, and the number of [free]
    calls is the number of allocations that returned a block. *)
Theorem buffer_is_freed_exactly_when_allocated :
  forall (dm : data_model) (env : environment) (session : CK_SESSION_HANDLE)
         (label : string),
    (List.length
       (observe allocated
          (calls env (aes_wrap_unwrap_with_trusted dm session label))) <= 1)%nat /\
    List.length
      (observe released
         (calls env (aes_wrap_unwrap_with_trusted dm session label)))
    = List.length
        (filter (fun a => match snd a with Some _ => true | None => false end)
           (observe allocated
              (calls env (aes_wrap_unwrap_with_trusted dm session label)))).
Proof.
  intros dm env session label.
  after_lookup env session label rv cell tr Htr.
  by_wp. wp_run.
  all: past_lookup tr Htr; cbn [filter List.length snd]; split; auto.
Qed.

(** X12. What is unwrapped is what was wrapped: every unwrap of a run is
    given the contents of the one allocated block as the second, successful
    wrap left them, together with the length that wrap stored. *)
Theorem unwraps_receive_the_wrapped_bytes :
  forall (dm : data_model) (env : environment) (session : CK_SESSION_HANDLE)
         (label : string) (m : CK_MECHANISM) (k : CK_OBJECT_HANDLE)
         (bytes : option (list CK_BYTE)) (len : CK_ULONG),
    In (m, k, bytes, len)
       (observe unwrap_request
          (calls env (aes_wrap_unwrap_with_trusted dm session label))) ->
    exists size block sized stored,
      observe allocated
        (calls env (aes_wrap_unwrap_with_trusted dm session label))
        = [(size, Some block)] /\
      observe wrap_answer
        (calls env (aes_wrap_unwrap_with_trusted dm session label))
        = [sized; (CKR_OK, stored, len)] /\
      bytes = Some (overwrite block stored).
Proof.
  intros dm env session label m k bytes len.
  after_lookup env session label rv cell tr Htr.
  by_wp. wp_run.
  all: past_lookup tr Htr; cbn [In]; intros Hin; clear_up; try discriminate.
  all: subst; do 4 eexists; repeat split; reflexivity.
Qed.

Lemma unwraps_receive_the_wrapped_bytes_witness :
  exists size block sized stored,
    observe allocated
      (calls hsm (aes_wrap_unwrap_with_trusted LP64 1 "wrapping-key"))
      = [(size, Some block)] /\
    observe wrap_answer
      (calls hsm (aes_wrap_unwrap_with_trusted LP64 1 "wrapping-key"))
      = [sized; (CKR_OK, stored, 8)] /\
    Some [1; 2; 3; 4; 5; 6; 7; 8] = Some (overwrite block stored).
Proof.
  apply (unwraps_receive_the_wrapped_bytes LP64 hsm 1 "wrapping-key"
           {| mechanism := CKM_CLOUDHSM_AES_KEY_WRAP_PKCS5_PAD;
              ulParameterLen := 0 |} 7).
  vm_compute. left. reflexivity.
Defined.

(** X13. What a [CKR_OK] result means: either the allocation of the buffer
    failed, or the whole scenario went through, that is, generation and both
    wraps succeeded, three unwraps were made of which the first and the
    third succeeded, and all three attribute queries succeeded. *)
Theorem success_means_allocation_failed_or_scenario_completed :
  forall (dm : data_model) (env : environment) (session : CK_SESSION_HANDLE)
         (label : string),
    result env (aes_wrap_unwrap_with_trusted dm session label) = CKR_OK ->
    (exists size,
        observe allocated
          (calls env (aes_wrap_unwrap_with_trusted dm session label))
        = [(size, None)]) \/
    (exists s h1 h2 h3,
        map (fun g => fst (fst g))
          (observe generation
             (calls env (aes_wrap_unwrap_with_trusted dm session label)))
        = [CKR_OK] /\
        map (fun a => fst (fst a))
          (observe wrap_answer
             (calls env (aes_wrap_unwrap_with_trusted dm session label)))
        = [CKR_OK; CKR_OK] /\
        unwrapped (calls env (aes_wrap_unwrap_with_trusted dm session label))
        = [(CKR_OK, h1); (s, h2); (CKR_OK, h3)] /\
        map snd
          (observe query
             (calls env (aes_wrap_unwrap_with_trusted dm session label)))
        = [CKR_OK; CKR_OK; CKR_OK]).
Proof.
  intros dm env session label.
  after_lookup env session label rv cell tr Htr.
  by_wp. wp_run.
  all: past_lookup tr Htr; unfold CKR_OK, CKR_GENERAL_ERROR in *; intros Hok.
  all: subst; try congruence; try discriminate.
  all: first [ left; eexists; reflexivity
             | right; do 4 eexists; repeat split; reflexivity ].
Qed.

Lemma success_means_allocation_failed_or_scenario_completed_witness :
  (exists size,
      observe allocated
        (calls hsm (aes_wrap_unwrap_with_trusted LP64 1 "wrapping-key"))
      = [(size, None)]) \/
  (exists s h1 h2 h3,
      map (fun g => fst (fst g))
        (observe generation
           (calls hsm (aes_wrap_unwrap_with_trusted LP64 1 "wrapping-key")))
      = [CKR_OK] /\
      map (fun a => fst (fst a))
        (observe wrap_answer
           (calls hsm (aes_wrap_unwrap_with_trusted LP64 1 "wrapping-key")))
      = [CKR_OK; CKR_OK] /\
      unwrapped (calls hsm (aes_wrap_unwrap_with_trusted LP64 1 "wrapping-key"))
      = [(CKR_OK, h1); (s, h2); (CKR_OK, h3)] /\
      map snd
        (observe query
           (calls hsm (aes_wrap_unwrap_with_trusted LP64 1 "wrapping-key")))
      = [CKR_OK; CKR_OK; CKR_OK]).
Proof.
  apply (success_means_allocation_failed_or_scenario_completed LP64 hsm 1
           "wrapping-key").
  reflexivity.
Defined.

(** X14. The status a run returns is the first failure the module reports
    in the main sequence: among the statuses of all PKCS#11 calls other than
    the inconsistent-template unwrap and the destructions of the cleanup
    block, the first one that is not [CKR_OK] is returned unchanged. *)
Theorem run_returns_first_main_failure :
  forall (dm : data_model) (env : environment) (session : CK_SESSION_HANDLE)
         (label : string) (s : CK_RV),
    first_failure
      (observe main_status
         (calls env (aes_wrap_unwrap_with_trusted dm session label)))
      = Some s ->
    result env (aes_wrap_unwrap_with_trusted dm session label) = s /\
    s <> CKR_OK.
Proof.
  intros dm env session label s. by_wp. wp_all.
  all: views; unfold CKR_OK in *; subst.
  all: cbn [main_status status attribute option_map find CK_ATTRIBUTE_TYPE_eqb
              type pValue observe flat_map app].
  all: change (true_val =? false_val) with false;
       change (false_val =? false_val) with true; cbn [find app].
  all: repeat match goal with
         | |- context [?a =? 0] => destruct (Z.eqb_spec a 0); subst; cbn [negb]
         end.
  all: intros Hfirst; inversion Hfirst; subst; try (split; congruence).
Qed.

Lemma run_returns_first_main_failure_witness :
  result hsm_generation_fails
    (aes_wrap_unwrap_with_trusted LP64 1 "wrapping-key") = 48 /\
  48 <> CKR_OK.
Proof.
  apply (run_returns_first_main_failure LP64 hsm_generation_fails 1
           "wrapping-key" 48).
  reflexivity.
Defined.

(** X15. Every PKCS#11 call of a run is made in the session the caller
    passed: the session handle is never replaced. *)
Theorem every_call_uses_the_callers_session :
  forall (dm : data_model) (env : environment) (session : CK_SESSION_HANDLE)
         (label : string),
    Forall (fun s => s = session)
      (observe call_session
         (calls env (aes_wrap_unwrap_with_trusted dm session label))).
Proof.
  intros dm env session label. by_wp. wp_all.
  all: views; repeat constructor.
Qed.

(** X16. Cleanup is the end of the run: whenever a destruction is attempted,
    the last two calls of the run are the destructions of the public and of
    the private key handle, preceded, if a block was allocated, by its
    [free]; no wrap, unwrap or query follows the release of the buffer. *)
Theorem cleanup_calls_end_the_run :
  forall (dm : data_model) (env : environment) (session : CK_SESSION_HANDLE)
         (label : string),
    destroyed (calls env (aes_wrap_unwrap_with_trusted dm session label)) <> [] ->
    last_calls 2 (calls env (aes_wrap_unwrap_with_trusted dm session label))
      = [ C_DestroyObject session
            (fst (generated_keys
                    (calls env (aes_wrap_unwrap_with_trusted dm session label))));
          C_DestroyObject session
            (snd (generated_keys
                    (calls env (aes_wrap_unwrap_with_trusted dm session label)))) ] /\
    (forall block,
        In block
          (observe released
             (calls env (aes_wrap_unwrap_with_trusted dm session label))) ->
        hd_error
          (last_calls 3
             (calls env (aes_wrap_unwrap_with_trusted dm session label)))
        = Some (free block)).
Proof.
  intros dm env session label. by_wp. wp_all.
  all: views; intros Hd; try (exfalso; apply Hd; reflexivity).
  all: split; [reflexivity|].
  all: cbn [In hd_error]; intros block Hin; clear_up; subst; reflexivity.
Qed.

Lemma cleanup_calls_end_the_run_witness :
  last_calls 2 (calls hsm (aes_wrap_unwrap_with_trusted LP64 1 "wrapping-key"))
    = [C_DestroyObject 1 11; C_DestroyObject 1 12] /\
  (forall block,
      In block
        (observe released
           (calls hsm (aes_wrap_unwrap_with_trusted LP64 1 "wrapping-key"))) ->
      hd_error
        (last_calls 3
           (calls hsm (aes_wrap_unwrap_with_trusted LP64 1 "wrapping-key")))
      = Some (free block)).
Proof.
  apply (cleanup_calls_end_the_run LP64 hsm 1 "wrapping-key").
  vm_compute. discriminate.
Defined.

(** *** The process *)

(** X17. [main] finalizes the session exactly when it exits with
    [EXIT_SUCCESS], and then it finalizes the session it opened; on every
    other exit it returns [EXIT_FAILURE] and no session is finalized, not
    even one that was opened. *)
Theorem main_finalizes_the_session_only_on_success :
  forall (dm : data_model) (env : environment) (argv : list string),
    (result env (main dm argv) = EXIT_SUCCESS /\
     exists session,
       observe opened (calls env (main dm argv)) = [(CKR_OK, session)] /\
       observe finalized (calls env (main dm argv)) = [session]) \/
    (result env (main dm argv) = EXIT_FAILURE /\
     observe finalized (calls env (main dm argv)) = []).
Proof.
  intros dm env argv. by_wp. wp_all.
  all: views; unfold CKR_OK in *; subst.
  all: first [ right; split; reflexivity
             | left; split; [reflexivity | eexists; split; reflexivity] ].
Qed.

(** X18. [main] talks to the module only after a complete start-up, and with
    what start-up gave it: whenever a run of [main] makes a PKCS#11 call,
    the arguments parsed, the library named by the arguments was initialized
    successfully, a session was opened successfully with the PIN of the
    arguments, every PKCS#11 call is made in that session, and the one
    search initiated filters on the label of the arguments. *)
Theorem main_uses_what_startup_delivered :
  forall (dm : data_model) (env : environment) (argv : list string),
    observe call_session (calls env (main dm argv)) <> [] ->
    exists code args session,
      observe parsed (calls env (main dm argv)) = [(code, args)] /\
      0 <= code /\
      observe initialized (calls env (main dm argv))
        = [(library args, CKR_OK)] /\
      observe login (calls env (main dm argv)) = [pin args] /\
      observe opened (calls env (main dm argv)) = [(CKR_OK, session)] /\
      Forall (fun s => s = session)
        (observe call_session (calls env (main dm argv))) /\
      observe searched_label (calls env (main dm argv))
        = [PString (wrapping_key_label args)].
Proof.
  intros dm env argv. by_wp. wp_all.
  all: views; unfold CKR_OK in *; subst.
  all: intros Hcall; try (exfalso; apply Hcall; reflexivity).
  all: do 3 eexists; repeat split; try reflexivity; try assumption.
  all: repeat constructor.
Qed.

Lemma main_uses_what_startup_delivered_witness :
  exists code args session,
    observe parsed (calls hsm (main LP64 ["unwrap_with_template"]))
      = [(code, args)] /\
    0 <= code /\
    observe initialized (calls hsm (main LP64 ["unwrap_with_template"]))
      = [(library args, CKR_OK)] /\
    observe login (calls hsm (main LP64 ["unwrap_with_template"]))
      = [pin args] /\
    observe opened (calls hsm (main LP64 ["unwrap_with_template"]))
      = [(CKR_OK, session)] /\
    Forall (fun s => s = session)
      (observe call_session (calls hsm (main LP64 ["unwrap_with_template"]))) /\
    observe searched_label (calls hsm (main LP64 ["unwrap_with_template"]))
      = [PString (wrapping_key_label args)].
Proof.
  apply (main_uses_what_startup_delivered LP64 hsm ["unwrap_with_template"]).
  vm_compute. discriminate.
Defined.
